(** * Backtest engine: a model of [backtest_engine.py]

    The engine replays daily quotes through an analyst and an executor.
    The database is modelled by its three tables, the SQL text of every
    query by the list or map function it denotes, floats by exact
    rationals ([Q]; rounding, infinities and NaN are outside the model)
    and datetimes by integers on the time line. *)

From Stdlib Require Import ZArith QArith Lia String.
From stdpp Require Import base list sorting strings gmap.

Local Open Scope Z_scope.

(** ** Tables *)

(** A row of [quotes], with the columns the engine's queries name. *)
Record quote := mkQuote {
  q_date : Z;
  q_ticker : string;
  q_close : Q;
  q_volume : Z;
  q_sma_5 : option Q;
  q_volatility_5 : option Q
}.

(** A row of [portfolio_state]; the table is keyed by [ticker] (the
    [ON CONFLICT (ticker)] clause needs that key), so the table is a map
    from ticker to the other columns. *)
Record position := mkPosition {
  quantity : Q;
  avg_entry_price : option Q;
  last_updated : Z
}.

(** Modelled from the spec: the row type of the trade ledger, read by
    [load_trade_history] of [report_generator], which is not in the
    source ("ticker, side, quantity, price, timestamp"). *)
Record trade := mkTrade {
  t_ticker : string;
  t_side : string;
  t_quantity : Q;
  t_price : Q;
  t_timestamp : Z
}.

(** What [compute_closed_trade_pnls] yields per closed trade; the engine
    reads [net_pnl] only. *)
Record trade_pnl := mkTradePnl { net_pnl : Q }.

Record database := mkDatabase {
  quotes : list quote;
  portfolio_state : gmap string position;
  trade_history : list trade
}.

Definition CASH : string := "CASH".

(** ** Python values *)

(** [bool(x)] of a float: false exactly at zero. *)
Definition float_truthy (x : Q) : bool := negb (Qnum x =? 0).

(** [x > 0] on floats. *)
Definition float_pos (x : Q) : bool := 0 <? Qnum x.

(** [sum(...)]: a left fold from zero. *)
Definition py_sum (l : list Q) : Q := foldl Qplus (0 # 1)%Q l.

(** A number stored in the result dict. *)
Inductive pynum :=
  | PyFloat (x : Q)
  | PyInt (n : Z).

(** ** The queries on [quotes] *)

(** [ORDER BY date DESC]: later rows first. *)
Definition date_desc (a b : quote) : Prop := q_date b ≤ q_date a.

Global Instance date_desc_dec a b : Decision (date_desc a b).
Proof. unfold date_desc. apply _. Defined.

Global Instance date_desc_total : Total date_desc.
Proof. intros a b. unfold date_desc. lia. Qed.

Global Instance date_desc_trans : Transitive date_desc.
Proof. intros a b c. unfold date_desc. lia. Qed.

(** [WHERE ticker = :ticker AND date <= :date]. *)
Definition as_of (ticker : string) (date : Z) (r : quote) : Prop :=
  q_ticker r = ticker ∧ q_date r ≤ date.

Global Instance as_of_dec ticker date r : Decision (as_of ticker date r).
Proof. unfold as_of. apply _. Defined.

(** [SELECT ... FROM quotes WHERE ticker = :ticker AND date <= :date
    ORDER BY date DESC LIMIT n]. *)
Definition select_recent (n : nat) (qs : list quote) (ticker : string)
    (date : Z) : list quote :=
  take n (merge_sort date_desc (filter (as_of ticker date) qs)).

(** [AVG(col)]: the mean of the values that are not NULL, NULL when
    there is none. *)
Definition sql_avg (col : list (option Q)) : option Q :=
  match omap id col with
  | [] => None
  | v :: vs => Some (py_sum (v :: vs) / inject_Z (Z.of_nat (length (v :: vs))))%Q
  end.

(** ** The engine *)

Record BacktestEngine := mkEngine {
  initial_cash : Q;
  current_date : option Z
}.

Definition get_price_at_date (d : database) (ticker : string) (date : Z)
    : option Q :=
  match head (select_recent 1 (quotes d) ticker date) with
  | Some result => Some (q_close result)
  | None => None
  end.

(** [SELECT DISTINCT date ... ORDER BY date ASC]. *)
Definition get_available_dates (d : database) (ticker : string)
    (start_date end_date : Z) : list Z :=
  merge_sort Z.le
    (remove_dups
       (q_date <$>
          filter (λ r, q_ticker r = ticker ∧ start_date ≤ q_date r
                       ∧ q_date r ≤ end_date) (quotes d))).

(** [reset_portfolio]: the three statements of its transaction, in
    order. [now] is the value of [CURRENT_TIMESTAMP]; [default_entry] is
    what the table gives [avg_entry_price] when the INSERT leaves it
    out. *)
Definition delete_positions (ps : gmap string position)
    : gmap string position :=
  filter (λ kv, ¬ (kv.1 ≠ CASH)) ps.

Definition update_cash (cash : Q) (now : Z) (ps : gmap string position)
    : gmap string position :=
  alter (λ p, mkPosition cash (avg_entry_price p) now) CASH ps.

Definition insert_cash (default_entry : option Q) (cash : Q) (now : Z)
    (ps : gmap string position) : gmap string position :=
  match ps !! CASH with
  | Some _ => ps
  | None => <[CASH := mkPosition cash default_entry now]> ps
  end.

Definition reset_portfolio (default_entry : option Q) (now : Z)
    (self : BacktestEngine) (d : database) : database :=
  let ps := delete_positions (portfolio_state d) in
  let ps := update_cash (initial_cash self) now ps in
  let ps := insert_cash default_entry (initial_cash self) now ps in
  mkDatabase (quotes d) ps (trade_history d).

(** ** Exceptions *)

Record exception := mkException {
  exc_type : string;
  exc_message : string
}.

Inductive outcome (A : Type) :=
  | Returns (a : A)
  | Raises (e : exception).
Arguments Returns {A} a.
Arguments Raises {A} e.

(** Float [/]: raises on a zero divisor. *)
Definition truediv (a b : Q) : outcome Q :=
  if Qnum b =? 0 then Raises (mkException "ZeroDivisionError" "float division by zero")
  else Returns (a / b)%Q.

(** ** The agents and their replaceable methods *)

(** What an attribute that [run_backtest] reassigns is bound to: the
    method the agent was built with, or the closure defined in
    [run_backtest]. *)
Inductive binding :=
  | Original
  | ForDate.

Record ExecutionAgent := mkExecutor {
  _get_current_price : binding
}.

Record AnalystAgent := mkAnalyst {
  get_last_5_days_quotes : binding;
  get_average_volatility_20_days : binding
}.

(** What a decision call returns: a dict, given by its values at
    ['decision'] and ['selected_strategy'] (absent keys are [None]), or
    a value that is not a dict, such as the signal itself. *)
Inductive decision_result :=
  | ResultDict (decision : option string) (selected_strategy : option string)
  | ResultValue (signal : string).

(** [d.get('decision', 'HOLD')]. *)
Definition get_decision_or_hold (decision : option string) : string :=
  default "HOLD"%string decision.

(** [decision in ("BUY", "STRONG_BUY")]. *)
Definition is_buy (decision : string) : bool :=
  bool_decide (decision = "BUY"%string ∨ decision = "STRONG_BUY"%string).

(** ** Log records and the trace of calls *)

Inductive log_record :=
  | InfoPortfolioReset (cash : Q)
  | InfoStart (tickers : list string) (start_date end_date : Z) (use_llm : bool)
  | ErrorNoTickers
  | ErrorNoData (ticker : string)
  | InfoDaysFound (n : nat)
  | InfoDate (date : Z) (i n : nat)
  | WarningStep (ticker : string) (date : Z) (e : exception)
  | InfoFinished (n decisions trades : nat) (final_cash total_pnl pnl_percent : option pynum).

(** The calls [run_backtest] makes on the agents, each with the
    simulated date it is made at. The trace is not a variable of the
    program: it records what the loop asked for. *)
Inductive call :=
  | CallDecision (date : Z) (ticker : string) (use_llm : bool)
  | CallExecuteBuy (date : Z) (ticker decision : string) (strategy : option string)
  | CallCheckStopLosses (date : Z).

Definition call_date (c : call) : Z :=
  match c with
  | CallDecision date _ _ => date
  | CallExecuteBuy date _ _ _ => date
  | CallCheckStopLosses date => date
  end.

Definition decision_request (c : call) : option (Z * string) :=
  match c with
  | CallDecision date ticker _ => Some (date, ticker)
  | _ => None
  end.

(** ** State *)

(** What outlives a call of [run_backtest]: the engine object, the
    database and the log. *)
Record world := mkWorld {
  self : BacktestEngine;
  db : database;
  log : list log_record
}.

(** The state of the loop: the world, the two agents [run_backtest]
    builds, its counters, and the trace. *)
Record frame := mkFrame {
  f_self : BacktestEngine;
  f_db : database;
  f_log : list log_record;
  executor : ExecutionAgent;
  analyst : AnalystAgent;
  trades_count : nat;
  decisions_count : nat;
  calls : list call
}.

Definition frame_world (f : frame) : world :=
  mkWorld (f_self f) (f_db f) (f_log f).

Definition set_current_date (date : option Z) (f : frame) : frame :=
  mkFrame (mkEngine (initial_cash (f_self f)) date) (f_db f) (f_log f)
    (executor f) (analyst f) (trades_count f) (decisions_count f) (calls f).

Definition set_db (d : database) (f : frame) : frame :=
  mkFrame (f_self f) d (f_log f) (executor f) (analyst f) (trades_count f)
    (decisions_count f) (calls f).

Definition logger (r : log_record) (f : frame) : frame :=
  mkFrame (f_self f) (f_db f) (f_log f ++ [r]) (executor f) (analyst f)
    (trades_count f) (decisions_count f) (calls f).

Definition set_executor (e : ExecutionAgent) (f : frame) : frame :=
  mkFrame (f_self f) (f_db f) (f_log f) e (analyst f) (trades_count f)
    (decisions_count f) (calls f).

Definition set_analyst (a : AnalystAgent) (f : frame) : frame :=
  mkFrame (f_self f) (f_db f) (f_log f) (executor f) a (trades_count f)
    (decisions_count f) (calls f).

Definition incr_trades (f : frame) : frame :=
  mkFrame (f_self f) (f_db f) (f_log f) (executor f) (analyst f)
    (S (trades_count f)) (decisions_count f) (calls f).

Definition incr_decisions (f : frame) : frame :=
  mkFrame (f_self f) (f_db f) (f_log f) (executor f) (analyst f)
    (trades_count f) (S (decisions_count f)) (calls f).

Definition record_call (c : call) (f : frame) : frame :=
  mkFrame (f_self f) (f_db f) (f_log f) (executor f) (analyst f)
    (trades_count f) (decisions_count f) (calls f ++ [c]).

(** ** Statements that may raise *)

Definition M (A : Type) : Type := frame → frame * outcome A.

Definition ret {A} (a : A) : M A := λ f, (f, Returns a).
Definition raise {A} (e : exception) : M A := λ f, (f, Raises e).
Definition bind {A B} (m : M A) (k : A → M B) : M B :=
  λ f, match m f with
       | (f', Returns a) => k a f'
       | (f', Raises e) => (f', Raises e)
       end.
Definition modify (g : frame → frame) : M unit := λ f, (g f, Returns tt).

Notation "'do' x <- m ; k" := (bind m (λ x, k))
  (at level 10, x name, m at level 100, k at level 200).
Notation "m ;; k" := (bind m (λ _, k))
  (at level 100, k at level 200, right associativity).

(** [try: body except Exception as e: handler(e)]. Every exception of
    the model is an instance of [Exception]. *)
Definition try_except (body : M unit) (handler : exception → frame → frame)
    : frame → frame :=
  λ f, match body f with
       | (f', Returns _) => f'
       | (f', Raises e) => handler e f'
       end.

(** ** The run, over the agents' own code *)

(** The code of the repository that [backtest_engine.py] calls and that
    is not part of it: the methods the agents are built with (live
    data), the analyst's and executor's operations, the report
    generator and the table's column default. An operation of an agent
    reads prices, quotes and volatility through the method its agent is
    bound to at the time of the call, may change the database, and
    returns or raises. *)
Class Collaborators := {
  original_get_price : database → string → option Q;
  original_get_quotes : database → string → list quote;
  original_get_volatility : database → string → Q;
  get_decision :
    (database → string → list quote) → (database → string → Q) →
    database → string → database * outcome decision_result;
  get_decision_with_llm :
    (database → string → list quote) → (database → string → Q) →
    database → string → database * outcome decision_result;
  _execute_buy :
    (database → string → option Q) →
    database → string → string → option string → database * outcome unit;
  check_stop_losses :
    (database → string → option Q) → database → database * outcome unit;
  (** [compute_closed_trade_pnls] of [report_generator]. *)
  compute_closed_trade_pnls : list trade → list trade_pnl;
  (** The column default of [portfolio_state.avg_entry_price]. *)
  default_price : option Q
}.

Section Backtest.

Context `{Collaborators}.

(** *** The closures of [run_backtest] *)

Definition get_price_for_date (self : BacktestEngine) (d : database)
    (ticker : string) : option Q :=
  match current_date self with
  | Some date => get_price_at_date d ticker date
  | None => original_get_price d ticker
  end.

Definition get_quotes_for_date (self : BacktestEngine) (d : database)
    (ticker : string) : list quote :=
  match current_date self with
  | Some date => select_recent 5 (quotes d) ticker date
  | None => original_get_quotes d ticker
  end.

Definition get_volatility_for_date (self : BacktestEngine) (d : database)
    (ticker : string) : Q :=
  match current_date self with
  | Some date =>
      match sql_avg (q_volatility_5 <$> select_recent 20 (quotes d) ticker date) with
      | Some avg_volatility => avg_volatility
      | None => (0 # 1)%Q
      end
  | None => original_get_volatility d ticker
  end.

(** Calling a method through the attribute it is bound to. *)
Definition call_get_current_price (ex : ExecutionAgent)
    (self : BacktestEngine) : database → string → option Q :=
  match _get_current_price ex with
  | Original => original_get_price
  | ForDate => get_price_for_date self
  end.

Definition call_get_last_5_days_quotes (an : AnalystAgent)
    (self : BacktestEngine) : database → string → list quote :=
  match get_last_5_days_quotes an with
  | Original => original_get_quotes
  | ForDate => get_quotes_for_date self
  end.

Definition call_get_average_volatility_20_days (an : AnalystAgent)
    (self : BacktestEngine) : database → string → Q :=
  match get_average_volatility_20_days an with
  | Original => original_get_volatility
  | ForDate => get_volatility_for_date self
  end.

(** *** Calls on the agents *)

Definition analyst_decision (date : Z) (use_llm : bool) (ticker : string)
    : M decision_result :=
  λ f,
    let f := record_call (CallDecision date ticker use_llm) f in
    let op := if use_llm then get_decision_with_llm else get_decision in
    let '(d, r) := op (call_get_last_5_days_quotes (analyst f) (f_self f))
                      (call_get_average_volatility_20_days (analyst f) (f_self f))
                      (f_db f) ticker in
    (set_db d f, r).

Definition executor_execute_buy (date : Z) (ticker decision : string)
    (strategy : option string) : M unit :=
  λ f,
    let f := record_call (CallExecuteBuy date ticker decision strategy) f in
    let '(d, r) := _execute_buy (call_get_current_price (executor f) (f_self f))
                     (f_db f) ticker decision strategy in
    (set_db d f, r).

Definition executor_check_stop_losses (date : Z) : M unit :=
  λ f,
    let f := record_call (CallCheckStopLosses date) f in
    let '(d, r) := check_stop_losses
                     (call_get_current_price (executor f) (f_self f)) (f_db f) in
    (set_db d f, r).

(** [result.get('decision', 'HOLD')] on the value of the LLM call: a
    value that is not a dict has no [get]. *)
Definition result_get_decision (result : decision_result) : M string :=
  match result with
  | ResultDict decision _ => ret (get_decision_or_hold decision)
  | ResultValue _ =>
      raise (mkException "AttributeError" "object has no attribute 'get'")
  end.

(** [result.get('selected_strategy') if use_llm and
    isinstance(result, dict) else None]; [result] is bound on the LLM
    path only. *)
Definition strategy_argument (use_llm : bool) (result : option decision_result)
    : option string :=
  match use_llm, result with
  | true, Some (ResultDict _ selected_strategy) => selected_strategy
  | _, _ => None
  end.

(** *** The loop *)

(** The body of [try:] for one ticker on one date, from the counter
    on. *)
Definition execute_decision (date : Z) (use_llm : bool) (ticker : string)
    (decision : string) (result : option decision_result) : M unit :=
  modify incr_decisions ;;
  (if is_buy decision then
     executor_execute_buy date ticker decision (strategy_argument use_llm result) ;;
     modify incr_trades
   else ret tt) ;;
  executor_check_stop_losses date.

Definition try_body (date : Z) (use_llm : bool) (ticker : string) : M unit :=
  if use_llm then
    do result <- analyst_decision date true ticker ;
    do decision <- result_get_decision result ;
    execute_decision date use_llm ticker decision (Some result)
  else
    do decision_result <- analyst_decision date false ticker ;
    let decision :=
      match decision_result with
      | ResultDict decision _ => get_decision_or_hold decision
      | ResultValue signal => signal
      end in
    execute_decision date use_llm ticker decision None.

(** [try: ... except Exception as e: logger.warning(...); continue]. *)
Definition process_ticker (date : Z) (use_llm : bool) (ticker : string)
    : frame → frame :=
  try_except (try_body date use_llm ticker)
             (λ e, logger (WarningStep ticker date e)).

(** [for ticker in tickers]. *)
Definition for_tickers (date : Z) (use_llm : bool) (tickers : list string)
    : frame → frame :=
  λ f, foldl (λ f ticker, process_ticker date use_llm ticker f) f tickers.

(** [for i, date in enumerate(dates)], from index [i] on; [n] is
    [len(dates)]. *)
Fixpoint for_dates (n i : nat) (use_llm : bool) (tickers : list string)
    (dates : list Z) (f : frame) : frame :=
  match dates with
  | [] => f
  | date :: rest =>
      let f := set_current_date (Some date) f in
      if (i <? 5)%nat then for_dates n (S i) use_llm tickers rest f
      else
        let f := logger (InfoDate date (i + 1) n) f in
        let f := for_tickers date use_llm tickers f in
        for_dates n (S i) use_llm tickers rest f
  end.

(** *** The aggregator *)

(** [SELECT ticker, quantity, avg_entry_price FROM portfolio_state
    WHERE ticker != 'CASH' AND quantity > 0], as the rows of the data
    frame. *)
Definition open_positions (d : database) : list (string * position) :=
  map_to_list
    (filter (λ kv, kv.1 ≠ CASH ∧ float_pos (quantity kv.2)) (portfolio_state d)).

(** The body of [for _, pos in positions_df.iterrows()]. *)
Definition mark_position (self : BacktestEngine) (d : database)
    (open_positions_value : Q) (pos : string * position) : Q :=
  let ticker := pos.1 in
  let quantity := quantity pos.2 in
  let price :=
    match current_date self with
    | Some date => get_price_at_date d ticker date
    | None => None
    end in
  match price with
  | Some price =>
      if float_truthy price then (open_positions_value + quantity * price)%Q
      else open_positions_value
  | None => open_positions_value
  end.

Definition mark_positions (self : BacktestEngine) (d : database)
    (positions_df : list (string * position)) : Q :=
  match positions_df with
  | [] => (0 # 1)%Q
  | _ => foldl (mark_position self d) (0 # 1)%Q positions_df
  end.

Definition closed_pnl_of (trade_pnls : list trade_pnl) : Q :=
  match trade_pnls with
  | [] => (0 # 1)%Q
  | _ => py_sum (net_pnl <$> trade_pnls)
  end.

Definition win_rate_of (trade_pnls : list trade_pnl) : outcome Q :=
  match trade_pnls with
  | [] => Returns (0 # 1)%Q
  | _ =>
      let wins := length (filter (λ t, float_pos (net_pnl t)) trade_pnls) in
      match truediv (inject_Z (Z.of_nat wins))
                    (inject_Z (Z.of_nat (length trade_pnls))) with
      | Returns ratio => Returns (ratio * (100 # 1))%Q
      | Raises e => Raises e
      end
  end.

Definition pnl_percent_of (self : BacktestEngine) (total_pnl : Q) : outcome Q :=
  if float_pos (initial_cash self) then
    match truediv total_pnl (initial_cash self) with
    | Returns ratio => Returns (ratio * (100 # 1))%Q
    | Raises e => Raises e
    end
  else Returns (0 # 1)%Q.

Definition _calculate_backtest_results (self : BacktestEngine) (d : database)
    : outcome (gmap string pynum) :=
  let final_cash :=
    match portfolio_state d !! CASH with
    | Some cash_result => quantity cash_result
    | None => initial_cash self
    end in
  let open_positions_value := mark_positions self d (open_positions d) in
  let all_trades := trade_history d in
  let trade_pnls := compute_closed_trade_pnls all_trades in
  let closed_pnl := closed_pnl_of trade_pnls in
  match win_rate_of trade_pnls with
  | Raises e => Raises e
  | Returns win_rate =>
      let total_value := (final_cash + open_positions_value)%Q in
      let total_pnl := (total_value - initial_cash self)%Q in
      match pnl_percent_of self total_pnl with
      | Raises e => Raises e
      | Returns pnl_percent =>
          Returns
            (<["closed_trades_count" := PyInt (Z.of_nat (length trade_pnls))]>
             (<["win_rate" := PyFloat win_rate]>
             (<["closed_pnl" := PyFloat closed_pnl]>
             (<["pnl_percent" := PyFloat pnl_percent]>
             (<["total_pnl" := PyFloat total_pnl]>
             (<["total_value" := PyFloat total_value]>
             (<["open_positions_value" := PyFloat open_positions_value]>
             (<["final_cash" := PyFloat final_cash]>
             (<["initial_cash" := PyFloat (initial_cash self)]> ∅)))))))))
      end
  end.

(** *** [run_backtest] *)

(** How a call of [run_backtest] leaves its state: by one of the two
    [return {}] before the agents exist, or past the loop. *)
Inductive exit :=
  | Early (w : world)
  | Ran (f : frame).

Definition world_after (x : exit) : world :=
  match x with
  | Early w => w
  | Ran f => frame_world f
  end.

Definition calls_of (x : exit) : list call :=
  match x with
  | Early _ => []
  | Ran f => calls f
  end.

Definition world_log (r : log_record) (w : world) : world :=
  mkWorld (self w) (db w) (log w ++ [r]).

Definition world_reset_portfolio (now : Z) (w : world) : world :=
  world_log (InfoPortfolioReset (initial_cash (self w)))
    (mkWorld (self w) (reset_portfolio default_price now (self w) (db w)) (log w)).

Definition run_backtest (now : Z) (tickers : list string)
    (start_date end_date : Z) (use_llm reset_before : bool) (w : world)
    : outcome (gmap string pynum) * exit :=
  let w := world_log (InfoStart tickers start_date end_date use_llm) w in
  let w := if reset_before then world_reset_portfolio now w else w in
  match tickers with
  | [] => (Returns ∅, Early (world_log ErrorNoTickers w))
  | first :: _ =>
      let dates := get_available_dates (db w) first start_date end_date in
      match dates with
      | [] => (Returns ∅, Early (world_log (ErrorNoData first) w))
      | _ =>
          let w := world_log (InfoDaysFound (length dates)) w in
          let f := mkFrame (self w) (db w) (log w)
                     (mkExecutor Original) (mkAnalyst Original Original)
                     0 0 [] in
          let original_get_price := _get_current_price (executor f) in
          let f := set_executor (mkExecutor ForDate) f in
          let original_get_quotes := get_last_5_days_quotes (analyst f) in
          let original_get_volatility :=
            get_average_volatility_20_days (analyst f) in
          let f := set_analyst
                     (mkAnalyst ForDate
                        (get_average_volatility_20_days (analyst f))) f in
          let f := set_analyst
                     (mkAnalyst (get_last_5_days_quotes (analyst f)) ForDate) f in
          let f := for_dates (length dates) 0 use_llm tickers dates f in
          let f := set_executor (mkExecutor original_get_price) f in
          let f := set_analyst
                     (mkAnalyst original_get_quotes
                        (get_average_volatility_20_days (analyst f))) f in
          let f := set_analyst
                     (mkAnalyst (get_last_5_days_quotes (analyst f))
                        original_get_volatility) f in
          match _calculate_backtest_results (f_self f) (f_db f) with
          | Raises e => (Raises e, Ran f)
          | Returns results =>
              let results :=
                <["trades_count" := PyInt (Z.of_nat (trades_count f))]> results in
              let results :=
                <["decisions_count" := PyInt (Z.of_nat (decisions_count f))]>
                  results in
              let results :=
                <["dates_processed" := PyInt (Z.of_nat (length dates))]> results in
              let f := logger
                         (InfoFinished (length dates) (decisions_count f)
                            (trades_count f) (results !! "final_cash")
                            (results !! "total_pnl") (results !! "pnl_percent")) f in
              (Returns results, Ran f)
          end
      end
  end.

End Backtest.

(** ** Vocabulary of the properties *)

(** The database with every quote dated after [D] removed. *)
Definition forget_after (D : Z) (d : database) : database :=
  mkDatabase (filter (λ r, q_date r ≤ D) (quotes d)) (portfolio_state d)
    (trade_history d).

(** What the portfolio holds: quantity and entry price per ticker,
    without the time of the last write. *)
Definition holdings (d : database) : gmap string (Q * option Q) :=
  (λ p, (quantity p, avg_entry_price p)) <$> portfolio_state d.

(** The dates the loop runs over: those of the first ticker. *)
Definition trading_calendar (d : database) (tickers : list string)
    (start_date end_date : Z) : list Z :=
  match tickers with
  | [] => []
  | first :: _ => get_available_dates d first start_date end_date
  end.

(** One request per ticker, in order, for every date from index 5 on. *)
Definition requests_after_warmup (dates : list Z) (tickers : list string)
    : list (Z * string) :=
  date ← drop 5 dates; (λ ticker, (date, ticker)) <$> tickers.

(** What one pass of the [try] statement may do to the loop's state: it
    leaves the engine object and the agents' bindings alone and adds
    calls, all at [date], one of which is the decision request for
    [ticker]. *)
Definition step_of (date : Z) (requests : list (Z * string)) (f f' : frame)
    : Prop :=
  f_self f' = f_self f
  ∧ executor f' = executor f
  ∧ analyst f' = analyst f
  ∧ ∃ extra, calls f' = calls f ++ extra
             ∧ omap decision_request extra = requests
             ∧ Forall (λ c, call_date c = date) extra.

(** [BacktestEngine.__init__]: the clock starts unset. The default of
    [initial_cash] is 100000.0. *)
Definition __init__ (initial_cash : Q) : BacktestEngine :=
  mkEngine initial_cash None.

Definition default_initial_cash : Q := (100000 # 1)%Q.

(** The warnings of a log, and the decision requests of a loop state. *)
Definition is_warning (r : log_record) : bool :=
  match r with
  | WarningStep _ _ _ => true
  | _ => false
  end.

Definition warnings (l : list log_record) : nat :=
  length (filter (λ r, is_warning r) l).

Definition requests (f : frame) : nat :=
  length (omap decision_request (calls f)).

(** The counters against the trace and the log: no more trades than
    decisions, no more decisions than requests, and every request that
    is not counted as a decision has left a warning since the log had
    [before] of them. *)
Definition counters_consistent (before : nat) (f : frame) : Prop :=
  (trades_count f ≤ decisions_count f)%nat
  ∧ (decisions_count f ≤ requests f)%nat
  ∧ (requests f + before ≤ decisions_count f + warnings (f_log f))%nat.

(** A call that is not an execution, or the execution of a buy signal,
    with no strategy when the LLM is off. *)
Definition executes_buy_signal (use_llm : bool) (c : call) : Prop :=
  match c with
  | CallExecuteBuy _ _ decision strategy =>
      (decision = "BUY"%string ∨ decision = "STRONG_BUY"%string)
      ∧ (use_llm = false → strategy = None)
  | _ => True
  end.

(** The loop's state while the closures are installed and the clock is
    set. *)
Definition in_simulation (f : frame) : Prop :=
  executor f = mkExecutor ForDate
  ∧ analyst f = mkAnalyst ForDate ForDate
  ∧ is_Some (current_date (f_self f)).

(** The collaborators with other live methods. *)
Definition with_live (p : database → string → option Q)
    (q : database → string → list quote) (v : database → string → Q)
    (C : Collaborators) : Collaborators := {|
  original_get_price := p;
  original_get_quotes := q;
  original_get_volatility := v;
  get_decision := @get_decision C;
  get_decision_with_llm := @get_decision_with_llm C;
  _execute_buy := @_execute_buy C;
  check_stop_losses := @check_stop_losses C;
  compute_closed_trade_pnls := @compute_closed_trade_pnls C;
  default_price := @default_price C
|}.

(** The keys of the dict the aggregator builds, and of the dict a run
    returns. *)
Definition aggregator_keys : gset string :=
  {[ "initial_cash"; "final_cash"; "open_positions_value"; "total_value";
     "total_pnl"; "pnl_percent"; "closed_pnl"; "win_rate";
     "closed_trades_count" ]}.

Definition result_keys : gset string :=
  aggregator_keys ∪ {[ "trades_count"; "decisions_count"; "dates_processed" ]}.

(** ** Concrete data *)

Module Scenario.

Definition day (date : Z) (ticker : string) (close : Q) (vol : option Q)
    : quote :=
  mkQuote date ticker close 1000 None vol.

(** Seven days of one ticker, stored out of order, the first two
    without a volatility. *)
Definition msft : list quote :=
  [ day 3 "MSFT" (103 # 1) (Some (1 # 2));
    day 1 "MSFT" (101 # 1) None;
    day 2 "MSFT" (102 # 1) None;
    day 7 "MSFT" (107 # 1) (Some (3 # 2));
    day 4 "MSFT" (104 # 1) (Some (1 # 1));
    day 6 "MSFT" (0 # 1) (Some (2 # 1));
    day 5 "MSFT" (105 # 1) (Some (1 # 2)) ]%Q.

Definition held : gmap string position :=
  <["MSFT" := mkPosition (10 # 1) (Some (100 # 1)%Q) 0]>
    (<[CASH := mkPosition (500 # 1) None 0]> ∅).

Definition store : database := mkDatabase msft held [].

Definition engine : BacktestEngine := mkEngine (1000 # 1) None.

Definition start : world := mkWorld engine store [].

Definition boom : exception := mkException "RuntimeError" "no signal".

(** Agents that hold and never trade. *)
Definition quiet : Collaborators := {|
  original_get_price := λ _ _, None;
  original_get_quotes := λ _ _, [];
  original_get_volatility := λ _ _, (0 # 1)%Q;
  get_decision := λ _ _ d _, (d, Returns (ResultValue "HOLD"));
  get_decision_with_llm := λ _ _ d _, (d, Returns (ResultDict None None));
  _execute_buy := λ _ d _ _ _, (d, Returns tt);
  check_stop_losses := λ _ d, (d, Returns tt);
  compute_closed_trade_pnls := λ _, [];
  default_price := None
|}.

(** An analyst whose every decision call raises. *)
Definition failing : Collaborators := {|
  original_get_price := λ _ _, None;
  original_get_quotes := λ _ _, [];
  original_get_volatility := λ _ _, (0 # 1)%Q;
  get_decision := λ _ _ d _, (d, Raises boom);
  get_decision_with_llm := λ _ _ d _, (d, Raises boom);
  _execute_buy := λ _ d _ _ _, (d, Returns tt);
  check_stop_losses := λ _ d, (d, Returns tt);
  compute_closed_trade_pnls := λ _, [];
  default_price := None
|}.

(** Ten days of a ticker X that closes at 100 on day 7 and at 110 on
    day 9; an analyst that buys when the latest row it is shown is of
    day 7 or 9, and an executor that books one share at the price it is
    given. *)
Definition ten_days : list quote :=
  (λ date, day date "X"
             (if bool_decide (date = 7) then 100 # 1
              else if bool_decide (date = 9) then 110 # 1 else 90 # 1)
             None) <$> [1; 2; 3; 4; 5; 6; 7; 8; 9; 10].

Definition trend : Collaborators := {|
  original_get_price := λ _ _, None;
  original_get_quotes := λ _ _, [];
  original_get_volatility := λ _ _, (0 # 1)%Q;
  get_decision := λ quotes_of _ d ticker,
    match head (quotes_of d ticker) with
    | Some r =>
        if bool_decide (q_date r = 7 ∨ q_date r = 9)
        then (d, Returns (ResultDict (Some "BUY"%string) None))
        else (d, Returns (ResultValue "HOLD"))
    | None => (d, Raises boom)
    end;
  get_decision_with_llm := λ _ _ d _, (d, Raises boom);
  _execute_buy := λ price_of d ticker _ _,
    match price_of d ticker with
    | Some price =>
        (mkDatabase (quotes d) (portfolio_state d)
           (trade_history d ++ [mkTrade ticker "BUY" (1 # 1) price 0]),
         Returns tt)
    | None => (d, Raises boom)
    end;
  check_stop_losses := λ _ d, (d, Returns tt);
  compute_closed_trade_pnls := λ _, [];
  default_price := None
|}.

Definition ten_day_run : outcome (gmap string pynum) * exit :=
  run_backtest (H := trend) 0 ["X"%string] 1 10 false true
    (mkWorld engine (mkDatabase ten_days ∅ []) []).


End Scenario.

(** * Properties *)

(** ** The point-in-time query *)

Section SelectRecent.

Implicit Types (qs : list quote) (r : quote).

Lemma select_recent_elem n qs ticker date r :
  r ∈ select_recent n qs ticker date →
  r ∈ qs ∧ q_ticker r = ticker ∧ q_date r ≤ date.
Proof.
  unfold select_recent. intros Hr.
  apply subseteq_take in Hr.
  rewrite merge_sort_Permutation in Hr.
  apply list_elem_of_filter in Hr as [[? ?] ?]. auto.
Qed.

Lemma select_recent_length n qs ticker date :
  length (select_recent n qs ticker date)
  = (n `min` length (filter (as_of ticker date) qs))%nat.
Proof.
  unfold select_recent.
  by rewrite length_take, merge_sort_Permutation.
Qed.

Lemma select_recent_sorted n qs ticker date :
  StronglySorted date_desc (select_recent n qs ticker date).
Proof.
  unfold select_recent.
  set (s := merge_sort _ _).
  assert (Hs : StronglySorted date_desc s) by apply (StronglySorted_merge_sort _).
  rewrite <- (take_drop n s) in Hs.
  by apply StronglySorted_app_1_l in Hs.
Qed.

(** A qualifying row left out of the answer is no later than any row
    of the answer. *)
Lemma select_recent_latest n qs ticker date r r' :
  r ∈ select_recent n qs ticker date →
  r' ∈ qs → as_of ticker date r' →
  r' ∉ select_recent n qs ticker date →
  q_date r' ≤ q_date r.
Proof.
  unfold select_recent.
  set (s := merge_sort _ _). intros Hr Hin Has Hout.
  assert (Hs : StronglySorted date_desc s) by apply (StronglySorted_merge_sort _).
  assert (Hr' : r' ∈ s).
  { unfold s. rewrite merge_sort_Permutation.
    apply list_elem_of_filter. auto. }
  rewrite <- (take_drop n s) in Hs, Hr'.
  apply elem_of_app in Hr' as [Hr' | Hr']; [done |].
  exact (StronglySorted_app_1_elem_of _ _ _ _ _ Hs Hr Hr').
Qed.

(** The answer is the same on the table cut at [date]. *)
Lemma select_recent_forget n qs ticker date :
  select_recent n (filter (λ r, q_date r ≤ date) qs) ticker date
  = select_recent n qs ticker date.
Proof.
  unfold select_recent. do 2 f_equal.
  rewrite list_filter_filter.
  apply list_filter_iff. intros r. unfold as_of. tauto.
Qed.

End SelectRecent.

Lemma select_recent_none n qs ticker date :
  (∀ r, r ∈ qs → ¬ as_of ticker date r) →
  select_recent n qs ticker date = [].
Proof.
  intros Hno. unfold select_recent.
  destruct (filter (as_of ticker date) qs) as [|r l] eqn:Hf.
  - by destruct n.
  - assert (Hr : r ∈ filter (as_of ticker date) qs) by (rewrite Hf; left).
    apply list_elem_of_filter in Hr as [? ?]. by destruct (Hno r).
Qed.

Lemma omap_id_fmap {A B} (g : A → option B) (l : list A) :
  omap id (g <$> l) = omap g l.
Proof.
  induction l as [|a l IH]; [done |]. csimpl. rewrite IH. by destruct (g a).
Qed.

Lemma get_price_at_date_source d ticker date p :
  get_price_at_date d ticker date = Some p →
  ∃ r, r ∈ quotes d ∧ q_ticker r = ticker ∧ q_date r ≤ date ∧ q_close r = p.
Proof.
  unfold get_price_at_date.
  destruct (head _) as [r|] eqn:Hh; [|done].
  intros [= <-]. exists r.
  apply head_Some_elem_of, select_recent_elem in Hh. tauto.
Qed.

Lemma get_price_at_date_forget d ticker date :
  get_price_at_date (forget_after date d) ticker date
  = get_price_at_date d ticker date.
Proof.
  unfold get_price_at_date, forget_after. simpl.
  by rewrite select_recent_forget.
Qed.

Section Adapters.

Context `{Collaborators}.

(** C1. While [current_date] is [D], the price the executor is given,
    [get_price_at_date], the quotes adapter and the volatility adapter
    return rows of the table dated [D] or before only, and their
    answers do not change when every row dated after [D] is taken out
    of the table. *)
Theorem point_in_time_causality (cash : Q) (D : Z) (d : database)
    (ticker : string) :
  let self := mkEngine cash (Some D) in
  get_price_for_date self d ticker = get_price_at_date d ticker D
  ∧ (∀ p, get_price_at_date d ticker D = Some p →
       ∃ r, r ∈ quotes d ∧ q_ticker r = ticker ∧ q_date r ≤ D ∧ q_close r = p)
  ∧ (∀ r, r ∈ get_quotes_for_date self d ticker → r ∈ quotes d ∧ q_date r ≤ D)
  ∧ get_price_at_date (forget_after D d) ticker D = get_price_at_date d ticker D
  ∧ get_quotes_for_date self (forget_after D d) ticker
    = get_quotes_for_date self d ticker
  ∧ get_volatility_for_date self (forget_after D d) ticker
    = get_volatility_for_date self d ticker.
Proof.
  simpl. split_and!.
  - done.
  - apply get_price_at_date_source.
  - unfold get_quotes_for_date. simpl. intros r Hr.
    apply select_recent_elem in Hr. tauto.
  - apply get_price_at_date_forget.
  - unfold get_quotes_for_date, forget_after. simpl.
    apply select_recent_forget.
  - unfold get_volatility_for_date, forget_after. simpl.
    by rewrite select_recent_forget.
Qed.

(** C7. With [current_date] set to [D] the substituted
    [get_last_5_days_quotes] returns at most 5 rows of the ticker, all
    dated [D] or before, the latest first, and no row it leaves out is
    later than one it returns; with [current_date] unset it returns
    what the original method returns. *)
Theorem recent_quotes_adapter (cash : Q) (d : database) (ticker : string) :
  (∀ D, let rows := get_quotes_for_date (mkEngine cash (Some D)) d ticker in
     (length rows ≤ 5)%nat
     ∧ length rows = (5 `min` length (filter (as_of ticker D) (quotes d)))%nat
     ∧ (∀ r, r ∈ rows → r ∈ quotes d ∧ q_ticker r = ticker ∧ q_date r ≤ D)
     ∧ StronglySorted date_desc rows
     ∧ (∀ r r', r ∈ rows → r' ∈ quotes d → as_of ticker D r' → r' ∉ rows →
          q_date r' ≤ q_date r))
  ∧ get_quotes_for_date (mkEngine cash None) d ticker = original_get_quotes d ticker
  ∧ (∀ b self, call_get_last_5_days_quotes (mkAnalyst ForDate b) self
               = get_quotes_for_date self).
Proof.
  split_and!; [|done..].
  intros D. unfold get_quotes_for_date. simpl. split_and!.
  - rewrite select_recent_length. lia.
  - apply select_recent_length.
  - apply select_recent_elem.
  - apply select_recent_sorted.
  - apply select_recent_latest.
Qed.

(** C8. With [current_date] set to [D] the substituted
    [get_average_volatility_20_days] returns the mean of the
    volatilities recorded in the window, the at most 20 latest rows of
    the ticker dated [D] or before, and 0.0 when there is no such
    row. *)
Theorem volatility_adapter (cash : Q) (D : Z) (d : database) (ticker : string) :
  let window := select_recent 20 (quotes d) ticker D in
  let values := omap q_volatility_5 window in
  get_volatility_for_date (mkEngine cash (Some D)) d ticker
  = match values with
    | [] => (0 # 1)%Q
    | _ => (py_sum values / inject_Z (Z.of_nat (length values)))%Q
    end
  ∧ length window = (20 `min` length (filter (as_of ticker D) (quotes d)))%nat
  ∧ (∀ r, r ∈ window → r ∈ quotes d ∧ q_ticker r = ticker ∧ q_date r ≤ D)
  ∧ (∀ r r', r ∈ window → r' ∈ quotes d → as_of ticker D r' → r' ∉ window →
       q_date r' ≤ q_date r)
  ∧ ((∀ r, r ∈ window → is_Some (q_volatility_5 r)) →
       length values = length window)
  ∧ ((∀ r, r ∈ quotes d → ¬ as_of ticker D r) →
       get_volatility_for_date (mkEngine cash (Some D)) d ticker = (0 # 1)%Q)
  ∧ (∀ b self, call_get_average_volatility_20_days (mkAnalyst b ForDate) self
               = get_volatility_for_date self).
Proof.
  simpl. split_and!.
  - unfold get_volatility_for_date, sql_avg. simpl.
    rewrite omap_id_fmap. by destruct (omap _ _).
  - apply select_recent_length.
  - apply select_recent_elem.
  - apply select_recent_latest.
  - generalize (select_recent 20 (quotes d) ticker D).
    induction l as [|r l IH]; [done |]. intros Hall. simpl.
    destruct (Hall r) as [v ->]; [left |]. simpl. f_equal.
    apply IH. intros r' Hr'. apply Hall. by right.
  - intros Hno. unfold get_volatility_for_date. simpl.
    by rewrite select_recent_none.
  - done.
Qed.

End Adapters.

(** The window of the scenario on day 6 holds six rows, four of them
    with a volatility; their mean is 1. *)
Lemma volatility_adapter_witness :
  get_volatility_for_date (H := Scenario.quiet) (mkEngine (1000 # 1) (Some 6))
    Scenario.store "MSFT" == 1
  ∧ get_volatility_for_date (H := Scenario.quiet) (mkEngine (1000 # 1) (Some 6))
      Scenario.store "SNDK" = (0 # 1)%Q.
Proof.
  split.
  - destruct (volatility_adapter (H := Scenario.quiet) (1000 # 1) 6
                Scenario.store "MSFT") as (Hmean & _).
    rewrite Hmean. reflexivity.
  - destruct (volatility_adapter (H := Scenario.quiet) (1000 # 1) 6
                Scenario.store "SNDK") as (_ & _ & _ & _ & _ & Hzero & _).
    apply Hzero. intros r Hr [Ht _]. revert Hr Ht.
    unfold Scenario.store, Scenario.msft. simpl. rewrite !elem_of_cons.
    intros Hr Ht. destruct_or!; subst; try discriminate Ht.
    by apply elem_of_nil in Hr.
Defined.

(** ** Reset *)

Lemma delete_positions_cash (ps : gmap string position) :
  delete_positions ps
  = match ps !! CASH with
    | Some p => {[CASH := p]}
    | None => ∅
    end.
Proof.
  apply map_eq. intros k. apply option_eq. intros x.
  unfold delete_positions. rewrite map_lookup_filter_Some. simpl.
  destruct (decide (k = CASH)) as [-> | Hk].
  - destruct (ps !! CASH) as [p|].
    + rewrite lookup_singleton_eq. intuition congruence.
    + rewrite lookup_empty. intuition congruence.
  - destruct (ps !! CASH) as [p|].
    + rewrite lookup_singleton_ne by done. intuition congruence.
    + rewrite lookup_empty. intuition congruence.
Qed.

(** After a reset the table is the cash row alone. *)
Lemma reset_portfolio_state dp now self d :
  portfolio_state (reset_portfolio dp now self d)
  = {[CASH := mkPosition (initial_cash self)
                (match portfolio_state d !! CASH with
                 | Some p => avg_entry_price p
                 | None => dp
                 end) now]}.
Proof.
  unfold reset_portfolio. simpl. rewrite delete_positions_cash.
  unfold update_cash, insert_cash.
  destruct (portfolio_state d !! CASH) as [p|].
  - rewrite alter_singleton_eq, lookup_singleton_eq. done.
  - rewrite alter_empty, lookup_empty. apply insert_empty.
Qed.

(** C4. A second [reset_portfolio] leaves what the first one left: the
    cash row alone, holding [initial_cash]; only the time of the last
    write is the second call's, and at the same time the state is
    exactly the same. *)
Theorem reset_portfolio_idempotent (dp : option Q) (t1 t2 : Z)
    (self : BacktestEngine) (d : database) :
  let once := reset_portfolio dp t1 self d in
  let twice := reset_portfolio dp t2 self once in
  holdings twice = holdings once
  ∧ quotes twice = quotes once
  ∧ trade_history twice = trade_history once
  ∧ dom (portfolio_state once) = {[CASH]}
  ∧ quantity <$> portfolio_state once !! CASH = Some (initial_cash self)
  ∧ reset_portfolio dp t1 self once = once
  ∧ twice = reset_portfolio dp t2 self d.
Proof.
  intros once twice.
  assert (Htwice : ∀ t, portfolio_state (reset_portfolio dp t self once)
                        = portfolio_state (reset_portfolio dp t self d)).
  { intros t. rewrite !reset_portfolio_state. unfold once.
    rewrite reset_portfolio_state, lookup_singleton_eq. done. }
  assert (Hdb : ∀ t, reset_portfolio dp t self once = reset_portfolio dp t self d).
  { intros t. specialize (Htwice t). revert Htwice.
    unfold reset_portfolio at 1 3. simpl. by intros ->. }
  split_and!.
  - unfold holdings, twice. rewrite Htwice. unfold once.
    rewrite !reset_portfolio_state, !map_fmap_singleton. done.
  - done.
  - done.
  - unfold once. rewrite reset_portfolio_state. apply dom_singleton_L.
  - unfold once. rewrite reset_portfolio_state, lookup_singleton_eq. done.
  - apply Hdb.
  - apply Hdb.
Qed.

(** ** The aggregator *)

Lemma truediv_nonzero (a b : Q) :
  Qnum b ≠ 0 → truediv a b = Returns (a / b)%Q.
Proof.
  intros Hb. unfold truediv.
  destruct (Z.eqb_spec (Qnum b) 0); [done | done].
Qed.

Lemma float_pos_zero (x : Q) : (x == 0)%Q → float_pos x = false.
Proof.
  unfold Qeq, float_pos. simpl. intros Hx.
  apply Z.ltb_ge. lia.
Qed.

Lemma float_truthy_zero (x : Q) : (x == 0)%Q → float_truthy x = false.
Proof.
  unfold Qeq, float_truthy. simpl. intros Hx.
  replace (Qnum x) with 0 by lia. done.
Qed.

Section Aggregator.

Context `{Collaborators}.

Lemma win_rate_of_returns (trade_pnls : list trade_pnl) :
  ∃ win_rate, win_rate_of trade_pnls = Returns win_rate.
Proof.
  destruct trade_pnls as [|t l]; [by eexists |].
  unfold win_rate_of. rewrite truediv_nonzero; [by eexists |].
  simpl. lia.
Qed.

Lemma pnl_percent_of_returns (self : BacktestEngine) (total_pnl : Q) :
  ∃ pnl_percent, pnl_percent_of self total_pnl = Returns pnl_percent.
Proof.
  unfold pnl_percent_of.
  destruct (float_pos (initial_cash self)) eqn:Hpos; [| by eexists].
  rewrite truediv_nonzero; [by eexists |].
  unfold float_pos in Hpos. apply Z.ltb_lt in Hpos. lia.
Qed.

(** The aggregator returns on every engine and database. *)
Lemma calculate_backtest_results_returns (self : BacktestEngine) (d : database) :
  ∃ results, _calculate_backtest_results self d = Returns results.
Proof.
  unfold _calculate_backtest_results.
  destruct (win_rate_of_returns (compute_closed_trade_pnls (trade_history d)))
    as [win_rate ->].
  edestruct pnl_percent_of_returns as [pnl_percent ->].
  by eexists.
Qed.

(** C6. [_calculate_backtest_results] never raises; with no closed
    trade its [win_rate] and [closed_pnl] are 0, and with
    [initial_cash] equal to 0 its [pnl_percent] is 0. *)
Theorem degenerate_defaults (self : BacktestEngine) (d : database) :
  ∃ results,
    _calculate_backtest_results self d = Returns results
    ∧ (compute_closed_trade_pnls (trade_history d) = [] →
         results !! "win_rate" = Some (PyFloat (0 # 1))
         ∧ results !! "closed_pnl" = Some (PyFloat (0 # 1)))
    ∧ ((initial_cash self == 0)%Q →
         results !! "pnl_percent" = Some (PyFloat (0 # 1))).
Proof.
  unfold _calculate_backtest_results.
  destruct (win_rate_of_returns (compute_closed_trade_pnls (trade_history d)))
    as [win_rate Hwin]. rewrite Hwin.
  edestruct pnl_percent_of_returns as [pnl_percent Hpct]. rewrite Hpct.
  eexists. split_and!; [done | |].
  - intros Hnone. rewrite Hnone in Hwin |- *. simpl in Hwin.
    injection Hwin as <-.
    split; repeat (rewrite lookup_insert_ne by done);
      by rewrite lookup_insert_eq.
  - intros Hzero. unfold pnl_percent_of in Hpct.
    rewrite (float_pos_zero _ Hzero) in Hpct. injection Hpct as <-.
    repeat (rewrite lookup_insert_ne by done).
    by rewrite lookup_insert_eq.
Qed.

(** C10. An open position whose last price is 0.0 adds nothing to
    [open_positions_value], as one without a price: the value is
    unchanged by the position, and is the value of the positions
    without it. *)
Theorem zero_price_position_ignored (cash : Q) (D : Z) (d : database)
    (pos : string * position) (price : Q) :
  get_price_at_date d pos.1 D = Some price →
  (price == 0)%Q →
  let self := mkEngine cash (Some D) in
  (∀ value, mark_position self d value pos = value)
  ∧ (∀ value pos', get_price_at_date d pos'.1 D = None →
       mark_position self d value pos' = mark_position self d value pos)
  ∧ (∀ before after,
       mark_positions self d (before ++ pos :: after)
       = mark_positions self d (before ++ after)).
Proof.
  intros Hprice Hzero self.
  assert (Hskip : ∀ value, mark_position self d value pos = value).
  { intros value. unfold mark_position. simpl. rewrite Hprice.
    by rewrite (float_truthy_zero _ Hzero). }
  split_and!.
  - done.
  - intros value pos' Hnone. rewrite Hskip.
    unfold mark_position. simpl. by rewrite Hnone.
  - intros before after.
    assert (Hfold : ∀ value,
               foldl (mark_position self d) value (before ++ pos :: after)
               = foldl (mark_position self d) value (before ++ after)).
    { intros value. rewrite !foldl_app. simpl. by rewrite Hskip. }
    destruct before as [|b before'].
    + destruct after as [|a after']; simpl; by rewrite Hskip.
    + apply (Hfold (0 # 1)%Q).
Qed.

End Aggregator.

(** With the scenario's agents no trade is closed, and an engine
    started with no cash reports 0 percent. *)
Lemma degenerate_defaults_witness :
  ∃ results,
    _calculate_backtest_results (H := Scenario.quiet) (mkEngine (0 # 1) (Some 7))
      Scenario.store = Returns results
    ∧ results !! "win_rate" = Some (PyFloat (0 # 1))
    ∧ results !! "closed_pnl" = Some (PyFloat (0 # 1))
    ∧ results !! "pnl_percent" = Some (PyFloat (0 # 1)).
Proof.
  destruct (degenerate_defaults (H := Scenario.quiet) (mkEngine (0 # 1) (Some 7))
              Scenario.store) as (results & Hres & Hnone & Hzero).
  exists results. split; [exact Hres |].
  destruct (Hnone eq_refl) as [Hwin Hclosed].
  split; [exact Hwin |]. split; [exact Hclosed |].
  apply Hzero. reflexivity.
Defined.

(** On day 6 of the scenario the close of MSFT is 0.0: the position of
    10 shares is worth nothing, as if it had no price. *)
Lemma zero_price_position_ignored_witness :
  get_price_at_date Scenario.store "MSFT" 6 = Some (0 # 1)%Q
  ∧ mark_position (mkEngine (1000 # 1) (Some 6)) Scenario.store (7 # 1)
      ("MSFT", mkPosition (10 # 1) None 0) = (7 # 1)%Q.
Proof.
  split; [reflexivity |].
  destruct (zero_price_position_ignored (1000 # 1) 6 Scenario.store
              ("MSFT", mkPosition (10 # 1) None 0) (0 # 1)) as (Hskip & _).
  - reflexivity.
  - reflexivity.
  - apply Hskip.
Defined.

(** ** The loop *)

Lemma step_of_refl date f : step_of date [] f f.
Proof.
  repeat split. exists []. by rewrite app_nil_r.
Qed.

Lemma step_of_same date f f' :
  f_self f' = f_self f → executor f' = executor f → analyst f' = analyst f →
  calls f' = calls f → step_of date [] f f'.
Proof.
  intros Hs He Ha Hc. repeat split; [done.. |].
  exists []. by rewrite app_nil_r.
Qed.

Lemma step_of_trans date rs1 rs2 f1 f2 f3 :
  step_of date rs1 f1 f2 → step_of date rs2 f2 f3 →
  step_of date (rs1 ++ rs2) f1 f3.
Proof.
  intros (Hs1 & He1 & Ha1 & x1 & Hc1 & Hr1 & Hd1)
         (Hs2 & He2 & Ha2 & x2 & Hc2 & Hr2 & Hd2).
  repeat split; [congruence.. |].
  exists (x1 ++ x2). split_and!.
  - by rewrite Hc2, Hc1, app_assoc.
  - by rewrite omap_app, Hr1, Hr2.
  - by apply Forall_app.
Qed.

Lemma step_of_logger date rs r f f' :
  step_of date rs f f' → step_of date rs f (logger r f').
Proof. done. Qed.

Section Loop.

Context `{Collaborators}.

Lemma analyst_decision_step date use_llm ticker f :
  step_of date [(date, ticker)] f (analyst_decision date use_llm ticker f).1.
Proof.
  unfold analyst_decision.
  destruct ((if use_llm then get_decision_with_llm else get_decision) _ _ _ _)
    as [d r]. simpl.
  repeat split. exists [CallDecision date ticker use_llm].
  split_and!; [done | done | by repeat constructor].
Qed.

Lemma executor_execute_buy_step date ticker decision strategy f :
  step_of date [] f (executor_execute_buy date ticker decision strategy f).1.
Proof.
  unfold executor_execute_buy.
  destruct (_execute_buy _ _ _ _ _) as [d r]. simpl.
  repeat split. exists [CallExecuteBuy date ticker decision strategy].
  split_and!; [done | done | by repeat constructor].
Qed.

Lemma executor_check_stop_losses_step date f :
  step_of date [] f (executor_check_stop_losses date f).1.
Proof.
  unfold executor_check_stop_losses.
  destruct (check_stop_losses _ _) as [d r]. simpl.
  repeat split. exists [CallCheckStopLosses date].
  split_and!; [done | done | by repeat constructor].
Qed.

Lemma bind_step {A B} date rs1 rs2 (m : M A) (k : A → M B) f :
  step_of date rs1 f (m f).1 →
  (∀ a f', step_of date rs2 f' (k a f').1) →
  (∀ e, (m f).2 = Raises e → rs2 = []) →
  step_of date (rs1 ++ rs2) f (bind m k f).1.
Proof.
  intros Hm Hk Hraise. unfold bind.
  destruct (m f) as [f' [a | e]]; simpl in *.
  - eapply step_of_trans; [exact Hm | apply Hk].
  - rewrite (Hraise e eq_refl), app_nil_r. exact Hm.
Qed.

Lemma execute_decision_step date use_llm ticker decision result f :
  step_of date [] f (execute_decision date use_llm ticker decision result f).1.
Proof.
  unfold execute_decision.
  apply (bind_step date [] []); [by apply step_of_same | | done].
  intros _ f1.
  apply (bind_step date [] []); [| | done].
  - destruct (is_buy decision); [| apply step_of_refl].
    apply (bind_step date [] []); [| | done].
    + apply executor_execute_buy_step.
    + intros _ f2. by apply step_of_same.
  - intros _ f2. apply executor_check_stop_losses_step.
Qed.

Lemma try_body_step date use_llm ticker f :
  step_of date [(date, ticker)] f (try_body date use_llm ticker f).1.
Proof.
  unfold try_body. destruct use_llm.
  - apply (bind_step date [(date, ticker)] []); [| | done].
    + apply analyst_decision_step.
    + intros result f1.
      apply (bind_step date [] []); [| | done].
      * destruct result; apply step_of_refl.
      * intros decision f2. apply execute_decision_step.
  - apply (bind_step date [(date, ticker)] []); [| | done].
    + apply analyst_decision_step.
    + intros result f1. apply execute_decision_step.
Qed.

Lemma process_ticker_step date use_llm ticker f :
  step_of date [(date, ticker)] f (process_ticker date use_llm ticker f).
Proof.
  unfold process_ticker, try_except.
  pose proof (try_body_step date use_llm ticker f) as Hstep.
  destruct (try_body date use_llm ticker f) as [f' [[] | e]]; simpl in Hstep.
  - exact Hstep.
  - by apply step_of_logger.
Qed.

Lemma for_tickers_step date use_llm tickers f :
  step_of date ((λ ticker, (date, ticker)) <$> tickers) f
    (for_tickers date use_llm tickers f).
Proof.
  unfold for_tickers. revert f.
  induction tickers as [|ticker rest IH]; intros f; simpl.
  - apply step_of_refl.
  - apply (step_of_trans date [(date, ticker)] _ f _ _
             (process_ticker_step date use_llm ticker f)), IH.
Qed.

End Loop.

Lemma last_cons_default {A} (x : A) (l : list A) (o : option A) :
  match last (x :: l) with
  | Some y => Some y
  | None => o
  end
  = match last l with
    | Some y => Some y
    | None => Some x
    end.
Proof.
  destruct l as [|z l]; [reflexivity |].
  change (last (x :: z :: l)) with (last (z :: l)).
  destruct (last (z :: l)) eqn:Hlast; [done |].
  by apply last_None in Hlast.
Qed.

Section LoopDates.

Context `{Collaborators}.

Lemma for_dates_spec n tickers use_llm dates : ∀ i f,
  let f' := for_dates n i use_llm tickers dates f in
  initial_cash (f_self f') = initial_cash (f_self f)
  ∧ current_date (f_self f')
    = match last dates with
      | Some date => Some date
      | None => current_date (f_self f)
      end
  ∧ executor f' = executor f
  ∧ analyst f' = analyst f
  ∧ ∃ extra,
      calls f' = calls f ++ extra
      ∧ omap decision_request extra
        = (date ← drop (5 - i) dates; (λ ticker, (date, ticker)) <$> tickers)
      ∧ Forall (λ c, call_date c ∈ drop (5 - i) dates) extra.
Proof.
  induction dates as [|date rest IH]; intros i f; simpl.
  { split_and!; [done.. |]. exists []. rewrite app_nil_r, drop_nil. done. }
  destruct (Nat.ltb_spec i 5) as [Hi | Hi].
  - destruct (IH (S i) (set_current_date (Some date) f))
      as (Hcash & Hdate & Hex & Han & extra & Hcalls & Hreq & Hin).
    split_and!; [done | | done | done |].
    + rewrite Hdate. simpl. symmetry. apply last_cons_default.
    + exists extra. replace (5 - i)%nat with (S (5 - S i)) by lia. done.
  - set (f1 := logger _ (set_current_date (Some date) f)).
    destruct (for_tickers_step date use_llm tickers f1)
      as (Hs & He & Ha & x1 & Hc1 & Hr1 & Hd1).
    destruct (IH (S i) (for_tickers date use_llm tickers f1))
      as (Hcash & Hdate & Hex & Han & x2 & Hc2 & Hr2 & Hin2).
    replace (5 - S i)%nat with 0%nat in * by lia.
    replace (5 - i)%nat with 0%nat by lia. simpl in *.
    split_and!.
    + by rewrite Hcash, Hs.
    + rewrite Hdate, Hs. simpl. symmetry. apply last_cons_default.
    + by rewrite Hex, He.
    + by rewrite Han, Ha.
    + exists (x1 ++ x2). split_and!.
      * by rewrite Hc2, Hc1, app_assoc.
      * by rewrite omap_app, Hr1, Hr2.
      * apply Forall_app. split.
        -- eapply Forall_impl; [exact Hd1 |]. intros c ->. left.
        -- eapply Forall_impl; [exact Hin2 |]. intros c Hc. by right.
Qed.

End LoopDates.

(** ** The run *)

Section Run.

Context `{Collaborators}.

(** What a call of [run_backtest] returns and leaves, on every input
    and whatever the agents do. *)
Lemma run_backtest_spec (now : Z) (tickers : list string)
    (start_date end_date : Z) (use_llm reset_before : bool) (w : world) :
  let dates := trading_calendar (db w) tickers start_date end_date in
  let started :=
    if reset_before then reset_portfolio default_price now (self w) (db w)
    else db w in
  match run_backtest now tickers start_date end_date use_llm reset_before w with
  | (r, Early w') =>
      r = Returns ∅
      ∧ (tickers = [] ∨ dates = [])
      ∧ self w' = self w
      ∧ db w' = started
  | (r, Ran f) =>
      tickers ≠ [] ∧ dates ≠ []
      ∧ (∃ results,
           r = Returns results
           ∧ results !! "dates_processed" = Some (PyInt (Z.of_nat (length dates)))
           ∧ results !! "decisions_count"
             = Some (PyInt (Z.of_nat (decisions_count f)))
           ∧ results !! "trades_count" = Some (PyInt (Z.of_nat (trades_count f))))
      ∧ initial_cash (f_self f) = initial_cash (self w)
      ∧ current_date (f_self f) = last dates
      ∧ executor f = mkExecutor Original
      ∧ analyst f = mkAnalyst Original Original
      ∧ omap decision_request (calls f) = requests_after_warmup dates tickers
      ∧ Forall (λ c, call_date c ∈ drop 5 dates) (calls f)
  end.
Proof.
  intros dates started. unfold run_backtest.
  destruct tickers as [|first rest].
  { split_and!; [done | by left | by destruct reset_before
                | by destruct reset_before]. }
  set (w1 := if reset_before then _ else _).
  assert (Hself : self w1 = self w) by (unfold w1; by destruct reset_before).
  assert (Hdb : db w1 = started) by (unfold w1; by destruct reset_before).
  assert (Hdates : get_available_dates (db w1) first start_date end_date = dates).
  { unfold w1. by destruct reset_before. }
  rewrite Hdates. clearbody dates w1.
  destruct dates as [|date0 dates'] eqn:Hd.
  { split_and!; [done | by right | done | done]. }
  rewrite <- Hd. simpl.
  match goal with
  | |- context [for_dates ?n ?i ?l ?ts ?ds ?f0] =>
      destruct (for_dates_spec n ts l ds i f0)
        as (Hcash & Hdate & Hex & Han & extra & Hcalls & Hreq & Hin);
      set (f1 := for_dates n i l ts ds f0) in *
  end.
  simpl in Hcash, Hdate, Hex, Han, Hcalls.
  destruct (calculate_backtest_results_returns (f_self f1) (f_db f1))
    as [results Hres].
  rewrite Hres. simpl.
  split_and!.
  - done.
  - by rewrite Hd.
  - eexists. split_and!; [done | ..].
    + by rewrite lookup_insert_eq.
    + rewrite lookup_insert_ne by done. by rewrite lookup_insert_eq.
    + do 2 (rewrite lookup_insert_ne by done). by rewrite lookup_insert_eq.
  - by rewrite Hcash, Hself.
  - rewrite Hdate. destruct (last dates) eqn:Hlast; [done |].
    apply last_None in Hlast. by rewrite Hd in Hlast.
  - done.
  - done.
  - by rewrite Hcalls.
  - by rewrite Hcalls.
Qed.

End Run.

Lemma requests_after_warmup_no_tickers (dates : list Z) :
  requests_after_warmup dates [] = [].
Proof.
  unfold requests_after_warmup.
  induction (drop 5 dates) as [|date rest IH]; [done |]. by csimpl.
Qed.

Lemma requests_after_warmup_length (dates : list Z) (tickers : list string) :
  length (requests_after_warmup dates tickers)
  = ((length dates - 5) * length tickers)%nat.
Proof.
  unfold requests_after_warmup. rewrite <- length_drop.
  induction (drop 5 dates) as [|date rest IH]; [done |].
  csimpl. rewrite length_app, length_fmap, IH. done.
Qed.

Lemma trading_calendar_NoDup d tickers start_date end_date :
  NoDup (trading_calendar d tickers start_date end_date).
Proof.
  destruct tickers as [|first rest]; simpl; [constructor |].
  unfold get_available_dates. rewrite merge_sort_Permutation.
  apply NoDup_remove_dups.
Qed.

Section RunProperties.

Context `{Collaborators}.

(** The decision requests of a run, and where its calls fall. *)
Lemma run_backtest_requests (now : Z) (tickers : list string)
    (start_date end_date : Z) (use_llm reset_before : bool) (w : world) :
  let dates := trading_calendar (db w) tickers start_date end_date in
  let made :=
    calls_of (run_backtest now tickers start_date end_date use_llm
                reset_before w).2 in
  omap decision_request made = requests_after_warmup dates tickers
  ∧ Forall (λ c, call_date c ∈ drop 5 dates) made.
Proof.
  intros dates made.
  pose proof (run_backtest_spec now tickers start_date end_date use_llm
                reset_before w) as Hrun.
  unfold made.
  destruct (run_backtest _ _ _ _ _ _ _) as [r [w' | f]]; simpl in *.
  - split; [| constructor].
    destruct Hrun as (_ & [-> | Hnone] & _).
    + by rewrite requests_after_warmup_no_tickers.
    + fold dates in Hnone. by rewrite Hnone.
  - tauto.
Qed.

(** C2 (amended). When [run_backtest] gets past its start-up checks
    and through the loop, [_get_current_price],
    [get_last_5_days_quotes] and [get_average_volatility_20_days] are
    bound to the original methods again, and [current_date] is not
    cleared: it is the last date of the calendar. When it returns at a
    start-up check the engine object is as before. *)
Theorem methods_restored_date_kept (now : Z) (tickers : list string)
    (start_date end_date : Z) (use_llm reset_before : bool) (w : world) :
  match (run_backtest now tickers start_date end_date use_llm reset_before w).2 with
  | Ran f =>
      _get_current_price (executor f) = Original
      ∧ get_last_5_days_quotes (analyst f) = Original
      ∧ get_average_volatility_20_days (analyst f) = Original
      ∧ current_date (f_self f)
        = last (trading_calendar (db w) tickers start_date end_date)
      ∧ is_Some (current_date (f_self f))
  | Early w' => self w' = self w
  end.
Proof.
  pose proof (run_backtest_spec now tickers start_date end_date use_llm
                reset_before w) as Hrun.
  destruct (run_backtest _ _ _ _ _ _ _) as [r [w' | f]]; simpl in *.
  - tauto.
  - destruct Hrun as (_ & Hdates & _ & _ & Hdate & -> & -> & _).
    split_and!; [done.. | ].
    rewrite Hdate.
    destruct (last _) eqn:Hlast; [by eexists |].
    by apply last_None in Hlast.
Qed.

(** C3 (amended). With no tickers [run_backtest] returns the empty
    dict at the first check and calls no agent; the portfolio is reset
    exactly when [reset_before] is set, and is untouched otherwise. *)
Theorem empty_tickers_return_early (now start_date end_date : Z)
    (use_llm reset_before : bool) (w : world) :
  let r := run_backtest now [] start_date end_date use_llm reset_before w in
  r.1 = Returns ∅
  ∧ calls_of r.2 = []
  ∧ (∃ w', r.2 = Early w')
  ∧ self (world_after r.2) = self w
  ∧ db (world_after r.2)
    = if reset_before then reset_portfolio default_price now (self w) (db w)
      else db w.
Proof.
  simpl. split_and!; [done | done | by eexists | ..];
    by destruct reset_before.
Qed.

(** C5. On a calendar of N dates the agents are called on the dates
    from index 5 on only: one decision request per ticker, in order,
    for each of these N - 5 dates (none when N is at most 5), and no
    call at all on one of the first five dates. *)
Theorem warmup_skip (now : Z) (tickers : list string)
    (start_date end_date : Z) (use_llm reset_before : bool) (w : world) :
  let dates := trading_calendar (db w) tickers start_date end_date in
  let made :=
    calls_of (run_backtest now tickers start_date end_date use_llm
                reset_before w).2 in
  omap decision_request made = requests_after_warmup dates tickers
  ∧ length (omap decision_request made)
    = ((length dates - 5) * length tickers)%nat
  ∧ length (drop 5 dates) = (length dates - 5)%nat
  ∧ Forall (λ c, call_date c ∈ drop 5 dates) made
  ∧ (∀ date c, date ∈ take 5 dates → c ∈ made → call_date c ≠ date).
Proof.
  intros dates made.
  destruct (run_backtest_requests now tickers start_date end_date use_llm
              reset_before w) as [Hreq Hin].
  fold dates in Hreq, Hin. fold made in Hreq, Hin. split_and!.
  - done.
  - by rewrite Hreq, requests_after_warmup_length.
  - apply length_drop.
  - done.
  - intros date c Hdate Hc Heq.
    rewrite Forall_forall in Hin. specialize (Hin c Hc). rewrite Heq in Hin.
    pose proof (trading_calendar_NoDup (db w) tickers start_date end_date) as Hnd.
    fold dates in Hnd. rewrite <- (take_drop 5 dates) in Hnd.
    apply NoDup_app in Hnd as (_ & Hdisj & _). by apply (Hdisj date).
Qed.


End RunProperties.

(** ** The properties on the scenario *)

(** On day 4 the price of MSFT is the close of a row dated 4 or before. *)
Lemma point_in_time_causality_witness :
  ∃ r, r ∈ quotes Scenario.store ∧ q_ticker r = "MSFT"%string ∧ q_date r ≤ 4
       ∧ q_close r = (104 # 1)%Q.
Proof.
  destruct (point_in_time_causality (H := Scenario.quiet) (1000 # 1) 4
              Scenario.store "MSFT") as (_ & Hsource & _).
  apply Hsource. reflexivity.
Defined.

(** On day 6 the adapter returns the rows of days 6 down to 2. *)
Lemma recent_quotes_adapter_witness :
  q_date <$> get_quotes_for_date (H := Scenario.quiet)
               (mkEngine (1000 # 1) (Some 6)) Scenario.store "MSFT"
  = [6; 5; 4; 3; 2]
  ∧ ∀ r, r ∈ get_quotes_for_date (H := Scenario.quiet)
               (mkEngine (1000 # 1) (Some 6)) Scenario.store "MSFT" →
         q_date r ≤ 6.
Proof.
  split; [reflexivity |].
  destruct (recent_quotes_adapter (H := Scenario.quiet) (1000 # 1)
              Scenario.store "MSFT") as (Hset & _).
  destruct (Hset 6) as (_ & _ & Hrows & _).
  intros r Hr. apply Hrows in Hr. tauto.
Defined.

(** [current_date] is not cleared: after a run over the seven days of
    the scenario it is still set. *)
Lemma current_date_not_cleared :
  current_date
    (self (world_after
             (run_backtest (H := Scenario.quiet) 0 ["MSFT"%string] 1 7 false true
                Scenario.start).2))
  ≠ None.
Proof. vm_compute. discriminate. Qed.

(** The reset comes before the check of the tickers: with no tickers
    and [reset_before] set, the MSFT position of the scenario is
    deleted. *)
Lemma empty_tickers_reset_performed :
  portfolio_state
    (db (world_after
           (run_backtest (H := Scenario.quiet) 0 [] 1 7 false true
              Scenario.start).2))
  ≠ portfolio_state (db Scenario.start).
Proof.
  intros Heq. apply (f_equal (λ ps, ps !! "MSFT"%string)) in Heq.
  vm_compute in Heq. discriminate.
Qed.

(** Of the seven days of the scenario the last two are active. *)
Lemma warmup_skip_witness :
  omap decision_request
    (calls_of (run_backtest (H := Scenario.quiet) 0 ["MSFT"%string] 1 7 false true
                 Scenario.start).2)
  = [(6, "MSFT"%string); (7, "MSFT"%string)]
  ∧ ∀ c, c ∈ calls_of (run_backtest (H := Scenario.quiet) 0 ["MSFT"%string] 1 7
                         false true Scenario.start).2 →
         call_date c ≠ 5.
Proof.
  destruct (warmup_skip (H := Scenario.quiet) 0 ["MSFT"%string] 1 7 false true
              Scenario.start) as (Hreq & _ & _ & _ & Hwarm).
  split.
  - rewrite Hreq. reflexivity.
  - intros c Hc. apply (Hwarm 5 c); [| exact Hc].
    vm_compute. do 4 right. left.
Defined.


(** The run over ten days of one ticker with a buy signal on days 7 and
    9: five decisions, on days 6 to 10, and two trades, at the prices of
    the days they are made on. *)
Example ten_day_run_counts :
  match Scenario.ten_day_run.1 with
  | Returns results =>
      results !! "decisions_count" = Some (PyInt 5)
      ∧ results !! "trades_count" = Some (PyInt 2)
      ∧ results !! "dates_processed" = Some (PyInt 10)
  | Raises _ => False
  end
  ∧ t_price <$> trade_history (db (world_after Scenario.ten_day_run.2))
    = [100 # 1; 110 # 1]%Q.
Proof. vm_compute. auto. Qed.

(** * Further properties of the engine *)

(** ** The price oracle and the calendar *)

Lemma filter_ext_elem {A} (P1 P2 : A → Prop)
    `{!∀ x, Decision (P1 x), !∀ x, Decision (P2 x)} (l : list A) :
  (∀ x, x ∈ l → P1 x ↔ P2 x) → filter P1 l = filter P2 l.
Proof.
  induction l as [|a l IH]; intros Hiff; [done |].
  assert (Ha : P1 a ↔ P2 a) by (apply Hiff; left).
  assert (Hl : filter P1 l = filter P2 l).
  { apply IH. intros x Hx. apply Hiff. by right. }
  destruct (decide (P1 a)).
  - rewrite !filter_cons_True by tauto. by rewrite Hl.
  - rewrite !filter_cons_False by tauto. done.
Qed.

Lemma StronglySorted_le_NoDup_lt (l : list Z) :
  StronglySorted Z.le l → NoDup l → StronglySorted Z.lt l.
Proof.
  induction 1 as [|x l Hl IH Hx]; intros Hnd; [constructor |].
  apply NoDup_cons in Hnd as [Hx' Hnd].
  constructor; [by apply IH |].
  rewrite Forall_forall in Hx |- *. intros y Hy.
  specialize (Hx y Hy). assert (x ≠ y) by (by intros ->). lia.
Qed.

(** The first row of the answer is a latest qualifying row. *)
Lemma select_recent_head n qs ticker date r :
  head (select_recent n qs ticker date) = Some r →
  r ∈ qs ∧ as_of ticker date r
  ∧ ∀ r', r' ∈ qs → as_of ticker date r' → q_date r' ≤ q_date r.
Proof.
  intros Hhead.
  pose proof (head_Some_elem_of _ _ Hhead) as Hr.
  apply select_recent_elem in Hr as (Hin & Ht & Hd).
  split_and!; [done | done |].
  intros r' Hin' Has'. revert Hhead. unfold select_recent.
  set (s := merge_sort _ _).
  assert (Hs : StronglySorted date_desc s) by apply (StronglySorted_merge_sort _).
  assert (Hr' : r' ∈ s).
  { unfold s. rewrite merge_sort_Permutation. by apply list_elem_of_filter. }
  destruct s as [|r0 s']; [by destruct n |].
  destruct n as [|n]; [done |]. simpl. intros [= ->].
  apply StronglySorted_inv in Hs as [_ Hall].
  apply elem_of_cons in Hr' as [-> | Hr']; [lia |].
  rewrite Forall_forall in Hall. exact (Hall r' Hr').
Qed.

Lemma get_available_dates_elem d ticker start_date end_date date :
  date ∈ get_available_dates d ticker start_date end_date ↔
  ∃ r, r ∈ quotes d ∧ q_ticker r = ticker ∧ q_date r = date
       ∧ start_date ≤ date ≤ end_date.
Proof.
  unfold get_available_dates.
  rewrite merge_sort_Permutation, elem_of_remove_dups, list_elem_of_fmap.
  split.
  - intros (r & -> & Hr). apply list_elem_of_filter in Hr as [(? & ? & ?) ?].
    exists r. auto.
  - intros (r & Hr & Ht & Hd & Hs & He). exists r. split; [done |].
    apply list_elem_of_filter. split; [| done]. split_and!; [done | lia | lia].
Qed.

(** X1. [get_available_dates] returns the dates of the ticker's rows in
    the range, each once, in strictly increasing order: a date is in
    the answer exactly when some row of the ticker has it and it lies
    between [start_date] and [end_date]. *)
Theorem get_available_dates_calendar (d : database) (ticker : string)
    (start_date end_date : Z) :
  let dates := get_available_dates d ticker start_date end_date in
  StronglySorted Z.lt dates
  ∧ ∀ date, date ∈ dates ↔
      ∃ r, r ∈ quotes d ∧ q_ticker r = ticker ∧ q_date r = date
           ∧ start_date ≤ date ≤ end_date.
Proof.
  simpl. split.
  - unfold get_available_dates. apply StronglySorted_le_NoDup_lt.
    + apply (StronglySorted_merge_sort _).
    + rewrite merge_sort_Permutation. apply NoDup_remove_dups.
  - apply get_available_dates_elem.
Qed.

(** X2. [get_price_at_date] returns [None] exactly when the ticker has
    no row dated [date] or before; otherwise it returns the close of a
    row of the ticker that no other row dated [date] or before comes
    after. *)
Theorem get_price_at_date_latest (d : database) (ticker : string) (date : Z) :
  (get_price_at_date d ticker date = None ↔
     ∀ r, r ∈ quotes d → ¬ as_of ticker date r)
  ∧ ∀ p, get_price_at_date d ticker date = Some p →
      ∃ r, r ∈ quotes d ∧ as_of ticker date r ∧ q_close r = p
           ∧ ∀ r', r' ∈ quotes d → as_of ticker date r' → q_date r' ≤ q_date r.
Proof.
  unfold get_price_at_date. split.
  - split.
    + destruct (head _) eqn:Hhead; [done |]. intros _ r Hr Has.
      apply head_None in Hhead.
      assert (Hlen : length (select_recent 1 (quotes d) ticker date) = 0%nat)
        by (by rewrite Hhead).
      rewrite select_recent_length in Hlen.
      assert (Hin : r ∈ filter (as_of ticker date) (quotes d))
        by (by apply list_elem_of_filter).
      destruct (filter _ _); [by apply elem_of_nil in Hin | simpl in Hlen; lia].
    + intros Hno. by rewrite select_recent_none.
  - intros p. destruct (head _) as [r|] eqn:Hhead; [| done].
    intros [= <-]. exists r.
    apply select_recent_head in Hhead as (? & ? & ?). auto.
Qed.

(** X3. The price is the last known one: between two dates with no row
    of the ticker dated after the first and up to the second,
    [get_price_at_date] gives the same answer. *)
Theorem get_price_at_date_carried (d : database) (ticker : string) (D D' : Z) :
  D ≤ D' →
  (∀ r, r ∈ quotes d → q_ticker r = ticker → ¬ (D < q_date r ≤ D')) →
  get_price_at_date d ticker D' = get_price_at_date d ticker D.
Proof.
  intros Hle Hgap. unfold get_price_at_date, select_recent.
  rewrite (filter_ext_elem (as_of ticker D') (as_of ticker D)); [done |].
  intros r Hr. unfold as_of. split.
  - intros [Ht Hd]. split; [done |]. specialize (Hgap r Hr Ht). lia.
  - intros [Ht Hd]. split; [done | lia].
Qed.

(** X4. On every date of its calendar the ticker has a price, and it is
    the close of a row dated that very day. *)
Theorem calendar_date_has_price (d : database) (ticker : string)
    (start_date end_date date : Z) :
  date ∈ get_available_dates d ticker start_date end_date →
  ∃ r, r ∈ quotes d ∧ q_ticker r = ticker ∧ q_date r = date
       ∧ get_price_at_date d ticker date = Some (q_close r).
Proof.
  intros Hdate.
  apply get_available_dates_elem in Hdate as (r0 & Hr0 & Ht0 & Hd0 & _).
  unfold get_price_at_date.
  destruct (head _) as [r|] eqn:Hhead.
  - apply select_recent_head in Hhead as (Hr & [Ht Hd] & Hlatest).
    exists r. split_and!; [done | done | | done].
    assert (q_date r0 ≤ q_date r) by (apply Hlatest; [done | split; [done | lia]]).
    lia.
  - apply head_None in Hhead.
    assert (Hin : r0 ∈ filter (as_of ticker date) (quotes d)).
    { apply list_elem_of_filter. split; [split; [done | lia] | done]. }
    assert (Hlen : length (select_recent 1 (quotes d) ticker date) = 0%nat)
      by (by rewrite Hhead).
    rewrite select_recent_length in Hlen.
    destruct (filter _ _); [by apply elem_of_nil in Hin | simpl in Hlen; lia].
Qed.

(** After day 7 the scenario has no row: the price on day 20 is that of
    day 7. *)
Lemma get_price_at_date_carried_witness :
  get_price_at_date Scenario.store "MSFT" 20 = Some (107 # 1)%Q.
Proof.
  rewrite (get_price_at_date_carried Scenario.store "MSFT" 7 20).
  - reflexivity.
  - lia.
  - intros r Hr _. unfold Scenario.store, Scenario.msft in Hr. simpl in Hr.
    rewrite !elem_of_cons in Hr. destruct_or!; subst; simpl; try lia.
    by apply elem_of_nil in Hr.
Defined.

(** Day 6 is a date of the scenario's calendar; its price is the 0.0 of
    the row of that day. *)
Lemma calendar_date_has_price_witness :
  ∃ r, r ∈ quotes Scenario.store ∧ q_ticker r = "MSFT"%string ∧ q_date r = 6
       ∧ get_price_at_date Scenario.store "MSFT" 6 = Some (q_close r).
Proof.
  apply (calendar_date_has_price Scenario.store "MSFT" 1 7 6).
  vm_compute. do 5 right. left.
Defined.

(** ** The adapters together *)

Section AdaptersTogether.

Context `{Collaborators}.


End AdaptersTogether.

(** ** The aggregator, further *)

Lemma mark_positions_no_clock (cash : Q) (d : database)
    (positions_df : list (string * position)) :
  mark_positions (mkEngine cash None) d positions_df = (0 # 1)%Q.
Proof.
  unfold mark_positions. destruct positions_df as [|pos rest]; [done |].
  generalize (pos :: rest). intros l.
  induction l as [|a l IH]; [done |]. simpl. exact IH.
Qed.

Lemma open_positions_elem (d : database) (ticker : string) (p : position) :
  (ticker, p) ∈ open_positions d ↔
  portfolio_state d !! ticker = Some p ∧ ticker ≠ CASH
  ∧ float_pos (quantity p) = true.
Proof.
  unfold open_positions.
  rewrite elem_of_map_to_list, map_lookup_filter_Some. simpl.
  rewrite Is_true_true. tauto.
Qed.

Lemma open_positions_after_reset dp now self d :
  open_positions (reset_portfolio dp now self d) = [].
Proof.
  unfold open_positions. rewrite reset_portfolio_state.
  rewrite map_filter_singleton_False; [apply map_to_list_empty |].
  simpl. tauto.
Qed.

Lemma win_rate_of_bounds `{Collaborators} (trade_pnls : list trade_pnl) :
  ∃ win_rate, win_rate_of trade_pnls = Returns win_rate
              ∧ (0 <= win_rate)%Q ∧ (win_rate <= 100 # 1)%Q.
Proof.
  destruct trade_pnls as [|t l].
  { exists (0 # 1)%Q. split_and!; [done | | ]; by unfold Qle. }
  unfold win_rate_of. rewrite truediv_nonzero by (simpl; lia).
  eexists. split; [done |].
  set (wins := length (filter _ _)).
  set (n := length (t :: l)).
  assert (Hwins : (wins ≤ n)%nat) by apply length_filter.
  assert (Hn : (0 < inject_Z (Z.of_nat n))%Q).
  { change 0%Q with (inject_Z 0). rewrite <- Zlt_Qlt. unfold n. simpl. lia. }
  assert (Hratio0 : (0 <= inject_Z (Z.of_nat wins) / inject_Z (Z.of_nat n))%Q).
  { apply Qle_shift_div_l; [done |]. rewrite Qmult_0_l.
    change 0%Q with (inject_Z 0). rewrite <- Zle_Qle. lia. }
  assert (Hratio1 : (inject_Z (Z.of_nat wins) / inject_Z (Z.of_nat n) <= 1)%Q).
  { apply Qle_shift_div_r; [done |]. rewrite Qmult_1_l.
    rewrite <- Zle_Qle. lia. }
  split.
  - apply Qmult_le_0_compat; [done | by unfold Qle].
  - apply Qle_trans with (1 * (100 # 1))%Q; [| by unfold Qle].
    apply Qmult_le_compat_r; [done | by unfold Qle].
Qed.

Section AggregatorFurther.

Context `{Collaborators}.

(** X6. Right after [reset_portfolio] the aggregator reports the
    initial capital and no profit: [final_cash] is [initial_cash],
    [open_positions_value] is 0, and [total_pnl] and [pnl_percent] are
    zero. *)
Theorem results_after_reset (now : Z) (self : BacktestEngine) (d : database) :
  ∃ results total_pnl pnl_percent,
    _calculate_backtest_results self (reset_portfolio default_price now self d)
    = Returns results
    ∧ results !! "final_cash" = Some (PyFloat (initial_cash self))
    ∧ results !! "open_positions_value" = Some (PyFloat (0 # 1))
    ∧ results !! "total_pnl" = Some (PyFloat total_pnl)
    ∧ (total_pnl == 0)%Q
    ∧ results !! "pnl_percent" = Some (PyFloat pnl_percent)
    ∧ (pnl_percent == 0)%Q.
Proof.
  unfold _calculate_backtest_results.
  rewrite open_positions_after_reset, reset_portfolio_state, lookup_singleton_eq.
  simpl.
  destruct (win_rate_of_returns
              (compute_closed_trade_pnls (trade_history d))) as [win_rate ->].
  set (total_pnl := (initial_cash self + 0 - initial_cash self)%Q).
  assert (Hzero : (total_pnl == 0)%Q) by (unfold total_pnl; ring).
  assert (Hpct : ∃ pct, pnl_percent_of self total_pnl = Returns pct ∧ (pct == 0)%Q).
  { unfold pnl_percent_of.
    destruct (float_pos (initial_cash self)) eqn:Hpos; [| by eexists].
    rewrite truediv_nonzero.
    - eexists. split; [done |]. rewrite Hzero. unfold Qdiv. ring.
    - unfold float_pos in Hpos. apply Z.ltb_lt in Hpos. lia. }
  destruct Hpct as (pct & -> & Hpct).
  eexists. exists total_pnl, pct.
  split_and!; [done | | | | done | | done];
    repeat (rewrite lookup_insert_ne by done); by rewrite lookup_insert_eq.
Qed.

(** X7. On an engine whose clock is unset, as [__init__] leaves it, the
    aggregator values every open position at zero: whatever the
    portfolio and the quotes, [open_positions_value] is 0 and
    [total_value] is the cash. *)
Theorem results_without_clock (cash : Q) (d : database) :
  ∃ results final_cash,
    _calculate_backtest_results (__init__ cash) d = Returns results
    ∧ final_cash = match portfolio_state d !! CASH with
                   | Some row => quantity row
                   | None => cash
                   end
    ∧ results !! "final_cash" = Some (PyFloat final_cash)
    ∧ results !! "open_positions_value" = Some (PyFloat (0 # 1))
    ∧ results !! "total_value" = Some (PyFloat (final_cash + 0)).
Proof.
  unfold _calculate_backtest_results, __init__.
  rewrite mark_positions_no_clock. simpl.
  destruct (win_rate_of_returns
              (compute_closed_trade_pnls (trade_history d))) as [win_rate ->].
  edestruct pnl_percent_of_returns as [pnl_percent ->].
  eexists _, _. split_and!; [done | done | ..];
    repeat (rewrite lookup_insert_ne by done); by rewrite lookup_insert_eq.
Qed.

(** X8. [win_rate] is a percentage: on every engine and database it lies
    between 0 and 100. *)
Theorem win_rate_is_percentage (self : BacktestEngine) (d : database) :
  ∃ results win_rate,
    _calculate_backtest_results self d = Returns results
    ∧ results !! "win_rate" = Some (PyFloat win_rate)
    ∧ (0 <= win_rate)%Q ∧ (win_rate <= 100 # 1)%Q.
Proof.
  unfold _calculate_backtest_results.
  destruct (win_rate_of_bounds (compute_closed_trade_pnls (trade_history d)))
    as (win_rate & -> & Hlo & Hhi).
  edestruct pnl_percent_of_returns as [pnl_percent ->].
  eexists. exists win_rate. split_and!; [done | | done | done].
  repeat (rewrite lookup_insert_ne by done). by rewrite lookup_insert_eq.
Qed.

(** X9. [reset_portfolio] does not touch the trade ledger: what the
    aggregator reports of closed trades ([closed_pnl], [win_rate],
    [closed_trades_count]) is the same after a reset as before it, so
    trades closed in earlier runs still count. *)
Theorem reset_keeps_closed_trades (now : Z) (self : BacktestEngine)
    (d : database) :
  trade_history (reset_portfolio default_price now self d) = trade_history d
  ∧ quotes (reset_portfolio default_price now self d) = quotes d
  ∧ ∃ before after,
      _calculate_backtest_results self d = Returns before
      ∧ _calculate_backtest_results self
          (reset_portfolio default_price now self d) = Returns after
      ∧ after !! "closed_pnl" = before !! "closed_pnl"
      ∧ after !! "win_rate" = before !! "win_rate"
      ∧ after !! "closed_trades_count" = before !! "closed_trades_count".
Proof.
  split_and!; [done | done |].
  unfold _calculate_backtest_results. simpl.
  destruct (win_rate_of_returns
              (compute_closed_trade_pnls (trade_history d))) as [win_rate ->].
  edestruct (pnl_percent_of_returns self) as [pct1 ->].
  edestruct (pnl_percent_of_returns self) as [pct2 ->].
  eexists _, _. split_and!; [done | done | ..];
    repeat (rewrite lookup_insert_ne by done); by rewrite !lookup_insert_eq.
Qed.

(** X10. Marking to market never gives a negative value when no close
    is negative: only positions with a positive quantity are marked. *)
Theorem open_positions_value_nonnegative (self : BacktestEngine) (d : database) :
  (∀ r, r ∈ quotes d → (0 <= q_close r)%Q) →
  ∃ results value,
    _calculate_backtest_results self d = Returns results
    ∧ results !! "open_positions_value" = Some (PyFloat value)
    ∧ (0 <= value)%Q.
Proof.
  intros Hcloses.
  assert (Hmark : ∀ l value,
            (0 <= value)%Q →
            Forall (λ pos, float_pos (quantity pos.2) = true) l →
            (0 <= foldl (mark_position self d) value l)%Q).
  { induction l as [|pos l IH]; intros value Hvalue Hpos; [done |].
    apply Forall_cons in Hpos as [Hq Hpos]. simpl. apply IH; [| done].
    unfold mark_position.
    destruct (current_date self) as [date |]; [| done].
    destruct (get_price_at_date d pos.1 date) as [price |] eqn:Hprice; [| done].
    destruct (float_truthy price); [| done].
    apply get_price_at_date_source in Hprice as (r & Hr & _ & _ & <-).
    assert (Hqty : (0 <= quantity pos.2)%Q).
    { unfold float_pos in Hq. apply Z.ltb_lt in Hq. unfold Qle. simpl. lia. }
    exact (Qplus_le_compat 0 value 0 _ Hvalue
             (Qmult_le_0_compat _ _ Hqty (Hcloses r Hr))). }
  assert (Hvalue : (0 <= mark_positions self d (open_positions d))%Q).
  { unfold mark_positions.
    destruct (open_positions d) as [|pos l] eqn:Hopen; [done |].
    rewrite <- Hopen. apply Hmark; [done |].
    apply Forall_forall. intros [ticker row] Hin.
    apply open_positions_elem in Hin. tauto. }
  unfold _calculate_backtest_results.
  destruct (win_rate_of_returns
              (compute_closed_trade_pnls (trade_history d))) as [win_rate ->].
  edestruct pnl_percent_of_returns as [pnl_percent ->].
  eexists. exists (mark_positions self d (open_positions d)).
  split_and!; [done | | done].
  repeat (rewrite lookup_insert_ne by done). by rewrite lookup_insert_eq.
Qed.

End AggregatorFurther.

(** ** The loop, further *)

Lemma warnings_app (l1 l2 : list log_record) :
  warnings (l1 ++ l2) = (warnings l1 + warnings l2)%nat.
Proof. unfold warnings. by rewrite filter_app, length_app. Qed.

Lemma warnings_snoc (l : list log_record) (r : log_record) :
  warnings (l ++ [r]) = (warnings l + if is_warning r then 1 else 0)%nat.
Proof. rewrite warnings_app. f_equal. unfold warnings. by destruct r. Qed.

Ltac count_calls :=
  unfold requests; simpl; rewrite ?omap_app, ?length_app; simpl.

Section Counters.

Context `{Collaborators}.

Lemma analyst_decision_form date use_llm ticker f :
  ∃ d r, analyst_decision date use_llm ticker f
         = (set_db d (record_call (CallDecision date ticker use_llm) f), r).
Proof.
  unfold analyst_decision.
  destruct ((if use_llm then get_decision_with_llm else get_decision) _ _ _ _)
    as [d r]. by eexists _, _.
Qed.

Lemma executor_execute_buy_form date ticker decision strategy f :
  ∃ d r, executor_execute_buy date ticker decision strategy f
         = (set_db d (record_call (CallExecuteBuy date ticker decision strategy) f),
            r).
Proof.
  unfold executor_execute_buy.
  destruct (_execute_buy _ _ _ _ _) as [d r]. by eexists _, _.
Qed.

Lemma executor_check_stop_losses_form date f :
  ∃ d r, executor_check_stop_losses date f
         = (set_db d (record_call (CallCheckStopLosses date) f), r).
Proof.
  unfold executor_check_stop_losses.
  destruct (check_stop_losses _ _) as [d r]. by eexists _, _.
Qed.

(** What the [try] body does to the counters, the trace and the log,
    from the counter on and as a whole. *)
Lemma execute_decision_counts date use_llm ticker decision result f :
  let f' := (execute_decision date use_llm ticker decision result f).1 in
  f_log f' = f_log f
  ∧ requests f' = requests f
  ∧ decisions_count f' = S (decisions_count f)
  ∧ (trades_count f ≤ trades_count f' ≤ S (trades_count f))%nat.
Proof.
  unfold execute_decision, bind, modify, ret. simpl.
  destruct (is_buy decision).
  - destruct (executor_execute_buy_form date ticker decision
                (strategy_argument use_llm result) (incr_decisions f))
      as (d1 & r1 & ->).
    destruct r1 as [[] | e]; simpl.
    + destruct (executor_check_stop_losses_form date
                  (incr_trades
                     (set_db d1
                        (record_call
                           (CallExecuteBuy date ticker decision
                              (strategy_argument use_llm result))
                           (incr_decisions f))))) as (d2 & r2 & ->).
      simpl. count_calls. split_and!; [done | lia | done | lia | lia].
    + count_calls. split_and!; [done | lia | done | lia | lia].
  - destruct (executor_check_stop_losses_form date (incr_decisions f))
      as (d2 & r2 & ->).
    simpl. count_calls. split_and!; [done | lia | done | lia | lia].
Qed.

Lemma try_body_counts date use_llm ticker f :
  let f' := (try_body date use_llm ticker f).1 in
  f_log f' = f_log f
  ∧ requests f' = S (requests f)
  ∧ (decisions_count f ≤ decisions_count f' ≤ S (decisions_count f))%nat
  ∧ (trades_count f ≤ trades_count f')%nat
  ∧ (trades_count f' + decisions_count f
     ≤ trades_count f + decisions_count f')%nat
  ∧ (∀ x, (try_body date use_llm ticker f).2 = Returns x →
       decisions_count f' = S (decisions_count f)).
Proof.
  assert (Hstart : ∀ d, requests (set_db d (record_call
                                   (CallDecision date ticker use_llm) f))
                        = S (requests f)).
  { intros d. unfold requests. simpl. rewrite omap_app, length_app. simpl. lia. }
  assert (Hexec : ∀ d decision result,
            let g := set_db d (record_call (CallDecision date ticker use_llm) f) in
            let f' := (execute_decision date use_llm ticker decision result g).1 in
            f_log f' = f_log f
            ∧ requests f' = S (requests f)
            ∧ (decisions_count f ≤ decisions_count f' ≤ S (decisions_count f))%nat
            ∧ (trades_count f ≤ trades_count f')%nat
            ∧ (trades_count f' + decisions_count f
               ≤ trades_count f + decisions_count f')%nat
            ∧ decisions_count f' = S (decisions_count f)).
  { intros d decision result g f'.
    destruct (execute_decision_counts date use_llm ticker decision result g)
      as (Hlog & Hreq & Hdec & Htr).
    fold f' in Hlog, Hreq, Hdec, Htr. rewrite Hlog, Hreq, Hdec.
    unfold g in *. rewrite Hstart. simpl in *. split_and!; (done || lia). }
  unfold try_body. destruct use_llm.
  - unfold bind.
    destruct (analyst_decision_form date true ticker f) as (d & r & ->).
    destruct r as [res | e]; simpl.
    + destruct res as [decision strategy | signal]; simpl.
      * destruct (Hexec d (get_decision_or_hold decision)
                    (Some (ResultDict decision strategy)))
          as (? & ? & ? & ? & ? & ?).
        split_and!; (done || lia).
      * rewrite Hstart. split_and!; (done || lia).
    + rewrite Hstart. split_and!; (done || lia).
  - unfold bind.
    destruct (analyst_decision_form date false ticker f) as (d & r & ->).
    destruct r as [res | e]; simpl.
    + destruct (Hexec d
                  match res with
                  | ResultDict decision _ => get_decision_or_hold decision
                  | ResultValue signal => signal
                  end None) as (? & ? & ? & ? & ? & ?).
      split_and!; (done || lia).
    + rewrite Hstart. split_and!; (done || lia).
Qed.

Lemma process_ticker_counts before date use_llm ticker f :
  counters_consistent before f →
  counters_consistent before (process_ticker date use_llm ticker f).
Proof.
  intros (Ht & Hd & Hr).
  destruct (try_body_counts date use_llm ticker f)
    as (Hlog & Hreq & Hdec & Htr & Hrel & Hret).
  unfold process_ticker, try_except.
  destruct (try_body date use_llm ticker f) as [f' [[] | e]]; simpl in *.
  - specialize (Hret () eq_refl). unfold counters_consistent.
    rewrite Hlog, Hreq. lia.
  - unfold counters_consistent, requests in *. simpl.
    rewrite warnings_app, Hlog. simpl. unfold warnings at 2. simpl. lia.
Qed.

Lemma for_tickers_counts before date use_llm tickers f :
  counters_consistent before f →
  counters_consistent before (for_tickers date use_llm tickers f).
Proof.
  unfold for_tickers. revert f.
  induction tickers as [|ticker rest IH]; intros f Hf; [done |].
  simpl. by apply IH, process_ticker_counts.
Qed.

Lemma for_dates_counts before n use_llm tickers dates : ∀ i f,
  counters_consistent before f →
  counters_consistent before (for_dates n i use_llm tickers dates f).
Proof.
  induction dates as [|date rest IH]; intros i f Hf; [done |]. simpl.
  destruct (i <? 5)%nat.
  - by apply IH.
  - apply IH, for_tickers_counts.
    destruct Hf as (Ht & Hd & Hr). unfold counters_consistent, requests in *.
    simpl. rewrite warnings_app. simpl. unfold warnings at 2. simpl. lia.
Qed.

End Counters.


Section LoopFurther.

Context `{Collaborators}.


(** Dates within the warm-up move the clock and nothing else. *)
Lemma for_dates_warmup n use_llm tickers dates : ∀ i f,
  (i + length dates ≤ 5)%nat →
  let f' := for_dates n i use_llm tickers dates f in
  f_db f' = f_db f ∧ f_log f' = f_log f ∧ calls f' = calls f
  ∧ trades_count f' = trades_count f ∧ decisions_count f' = decisions_count f.
Proof.
  induction dates as [|date rest IH]; intros i f Hlen; simpl; [done |].
  simpl in Hlen.
  destruct (Nat.ltb_spec i 5) as [_ | Hi]; [| lia].
  apply (IH (S i) (set_current_date (Some date) f)). lia.
Qed.

End LoopFurther.

Section BuySignals.

Context `{Collaborators}.

Lemma execute_decision_buy_signals date use_llm ticker decision result f :
  ∃ extra,
    calls (execute_decision date use_llm ticker decision result f).1
    = calls f ++ extra
    ∧ Forall (executes_buy_signal use_llm) extra.
Proof.
  unfold execute_decision, bind, modify, ret. simpl.
  destruct (is_buy decision) eqn:Hbuy.
  - apply bool_decide_eq_true in Hbuy.
    assert (Hcall : executes_buy_signal use_llm
                      (CallExecuteBuy date ticker decision
                         (strategy_argument use_llm result))).
    { split; [done |]. by intros ->. }
    destruct (executor_execute_buy_form date ticker decision
                (strategy_argument use_llm result) (incr_decisions f))
      as (d1 & r1 & ->).
    destruct r1 as [[] | e]; simpl.
    + match goal with
      | |- context [executor_check_stop_losses date ?g] =>
          destruct (executor_check_stop_losses_form date g) as (d2 & r2 & ->)
      end.
      simpl. eexists [_; _]. rewrite <- app_assoc. split; [done |].
      apply Forall_cons. split; [exact Hcall |].
      apply Forall_cons. split; [exact I | constructor].
    + eexists [_]. split; [done |].
      apply Forall_cons. split; [exact Hcall | constructor].
  - destruct (executor_check_stop_losses_form date (incr_decisions f))
      as (d2 & r2 & ->).
    simpl. eexists [_]. split; [done |].
    apply Forall_cons. split; [exact I | constructor].
Qed.

Lemma try_body_buy_signals date use_llm ticker f :
  ∃ extra,
    calls (try_body date use_llm ticker f).1 = calls f ++ extra
    ∧ Forall (executes_buy_signal use_llm) extra.
Proof.
  assert (Hexec : ∀ d decision result,
            ∃ extra,
              calls (execute_decision date use_llm ticker decision result
                       (set_db d (record_call (CallDecision date ticker use_llm) f))).1
              = calls f ++ extra
              ∧ Forall (executes_buy_signal use_llm) extra).
  { intros d decision result.
    destruct (execute_decision_buy_signals date use_llm ticker decision result
                (set_db d (record_call (CallDecision date ticker use_llm) f)))
      as (extra & -> & Hextra).
    simpl. exists (CallDecision date ticker use_llm :: extra).
    rewrite <- app_assoc. split; [done |]. by constructor. }
  assert (Hstop : ∀ d,
            ∃ extra,
              calls (set_db d (record_call (CallDecision date ticker use_llm) f))
              = calls f ++ extra
              ∧ Forall (executes_buy_signal use_llm) extra).
  { intros d. eexists [_]. split; [done |].
    apply Forall_cons. split; [exact I | constructor]. }
  unfold try_body, bind. destruct use_llm.
  - destruct (analyst_decision_form date true ticker f) as (d & r & ->).
    destruct r as [[decision strategy | signal] | e]; simpl;
      [apply Hexec | apply (Hstop d) | apply (Hstop d)].
  - destruct (analyst_decision_form date false ticker f) as (d & r & ->).
    destruct r as [res | e]; simpl; [apply Hexec | apply (Hstop d)].
Qed.

Lemma for_tickers_buy_signals date use_llm tickers : ∀ f,
  ∃ extra,
    calls (for_tickers date use_llm tickers f) = calls f ++ extra
    ∧ Forall (executes_buy_signal use_llm) extra.
Proof.
  unfold for_tickers.
  induction tickers as [|ticker rest IH]; intros f; simpl.
  { exists []. by rewrite app_nil_r. }
  destruct (IH (process_ticker date use_llm ticker f)) as (x2 & -> & H2).
  assert (H1 : ∃ x1, calls (process_ticker date use_llm ticker f) = calls f ++ x1
                     ∧ Forall (executes_buy_signal use_llm) x1).
  { unfold process_ticker, try_except.
    destruct (try_body_buy_signals date use_llm ticker f) as (x1 & Hc & Hx).
    destruct (try_body date use_llm ticker f) as [f' [[] | e]]; by exists x1. }
  destruct H1 as (x1 & -> & H1).
  exists (x1 ++ x2). rewrite app_assoc. split; [done |]. by apply Forall_app.
Qed.

Lemma for_dates_buy_signals n use_llm tickers dates : ∀ i f,
  ∃ extra,
    calls (for_dates n i use_llm tickers dates f) = calls f ++ extra
    ∧ Forall (executes_buy_signal use_llm) extra.
Proof.
  induction dates as [|date rest IH]; intros i f; simpl.
  { exists []. by rewrite app_nil_r. }
  destruct (i <? 5)%nat.
  - apply (IH (S i) (set_current_date (Some date) f)).
  - set (f1 := logger _ (set_current_date (Some date) f)).
    destruct (for_tickers_buy_signals date use_llm tickers f1) as (x1 & Hc1 & H1).
    destruct (IH (S i) (for_tickers date use_llm tickers f1)) as (x2 & -> & H2).
    rewrite Hc1. exists (x1 ++ x2). rewrite app_assoc. split; [done |].
    by apply Forall_app.
Qed.

End BuySignals.

Section LiveMethods.

Context (C : Collaborators).
Context (p : database → string → option Q) (q : database → string → list quote)
  (v : database → string → Q).

(** With the agents bound to the closures and the clock set, the calls
    and the [try] body do not reach the live methods. *)
Lemma analyst_decision_live date use_llm ticker f :
  in_simulation f →
  analyst_decision (H := with_live p q v C) date use_llm ticker f
  = analyst_decision (H := C) date use_llm ticker f.
Proof.
  destruct f as [[cash clock] d l ex an t n cs]. unfold in_simulation. simpl.
  intros (-> & -> & [date' ->]). by destruct use_llm.
Qed.

Lemma executor_execute_buy_live date ticker decision strategy f :
  in_simulation f →
  executor_execute_buy (H := with_live p q v C) date ticker decision strategy f
  = executor_execute_buy (H := C) date ticker decision strategy f.
Proof.
  destruct f as [[cash clock] d l ex an t n cs]. unfold in_simulation. simpl.
  by intros (-> & -> & [date' ->]).
Qed.

Lemma executor_check_stop_losses_live date f :
  in_simulation f →
  executor_check_stop_losses (H := with_live p q v C) date f
  = executor_check_stop_losses (H := C) date f.
Proof.
  destruct f as [[cash clock] d l ex an t n cs]. unfold in_simulation. simpl.
  by intros (-> & -> & [date' ->]).
Qed.

Lemma execute_decision_live date use_llm ticker decision result f :
  in_simulation f →
  execute_decision (H := with_live p q v C) date use_llm ticker decision result f
  = execute_decision (H := C) date use_llm ticker decision result f.
Proof.
  intros Hsim. unfold execute_decision, bind, modify, ret. simpl.
  destruct (is_buy decision).
  - rewrite executor_execute_buy_live by done.
    destruct (executor_execute_buy_form (H := C) date ticker decision
                (strategy_argument use_llm result) (incr_decisions f))
      as (d1 & r1 & ->).
    destruct r1 as [[] | e]; [| done].
    by rewrite executor_check_stop_losses_live.
  - by rewrite executor_check_stop_losses_live.
Qed.

Lemma try_body_live date use_llm ticker f :
  in_simulation f →
  try_body (H := with_live p q v C) date use_llm ticker f
  = try_body (H := C) date use_llm ticker f.
Proof.
  intros Hsim. unfold try_body, bind. destruct use_llm.
  - rewrite analyst_decision_live by done.
    destruct (analyst_decision_form (H := C) date true ticker f) as (d & r & ->).
    destruct r as [[decision strategy | signal] | e]; simpl; [| done | done].
    by apply execute_decision_live.
  - rewrite analyst_decision_live by done.
    destruct (analyst_decision_form (H := C) date false ticker f) as (d & r & ->).
    destruct r as [res | e]; [| done].
    by apply execute_decision_live.
Qed.

Lemma for_tickers_live date use_llm tickers : ∀ f,
  in_simulation f →
  for_tickers (H := with_live p q v C) date use_llm tickers f
  = for_tickers (H := C) date use_llm tickers f.
Proof.
  unfold for_tickers.
  induction tickers as [|ticker rest IH]; intros f Hsim; [done |].
  simpl.
  assert (Hstep : process_ticker (H := with_live p q v C) date use_llm ticker f
                  = process_ticker (H := C) date use_llm ticker f).
  { unfold process_ticker, try_except. by rewrite try_body_live. }
  rewrite Hstep. apply IH.
  destruct (process_ticker_step (H := C) date use_llm ticker f)
    as (Hs & He & Ha & _).
  destruct Hsim as (? & ? & ?). unfold in_simulation. by rewrite Hs, He, Ha.
Qed.

Lemma for_dates_live n use_llm tickers dates : ∀ i f,
  executor f = mkExecutor ForDate →
  analyst f = mkAnalyst ForDate ForDate →
  for_dates (H := with_live p q v C) n i use_llm tickers dates f
  = for_dates (H := C) n i use_llm tickers dates f.
Proof.
  induction dates as [|date rest IH]; intros i f Hex Han; [done |]. simpl.
  destruct (i <? 5)%nat.
  - by apply IH.
  - rewrite for_tickers_live by (split_and!; [done | done | by eexists]).
    destruct (for_tickers_step (H := C) date use_llm tickers
                (logger (InfoDate date (i + 1) n) (set_current_date (Some date) f)))
      as (_ & He & Ha & _).
    apply IH; [by rewrite He | by rewrite Ha].
Qed.

(** X11. During a backtest the live methods are out of the way: the
    value and the final state of [run_backtest] are the same whatever
    the original [_get_current_price], [get_last_5_days_quotes] and
    [get_average_volatility_20_days] of the agents do. *)
Theorem run_backtest_ignores_live_methods (now : Z) (tickers : list string)
    (start_date end_date : Z) (use_llm reset_before : bool) (w : world) :
  run_backtest (H := with_live p q v C) now tickers start_date end_date use_llm
    reset_before w
  = run_backtest (H := C) now tickers start_date end_date use_llm reset_before w.
Proof.
  unfold run_backtest.
  destruct tickers as [|first rest]; [done |].
  change (@default_price (with_live p q v C)) with (@default_price C).
  unfold world_reset_portfolio.
  change (@default_price (with_live p q v C)) with (@default_price C).
  set (w1 := if reset_before then _ else _).
  destruct (get_available_dates (db w1) first start_date end_date)
    as [|date0 dates'] eqn:Hdates; [done |].
  rewrite for_dates_live by done. reflexivity.
Qed.

End LiveMethods.

(** ** The run, further *)

Section RunFurther.

Context `{Collaborators}.

(** A run whose first ticker has dates in the range: the loop it runs,
    from which state, and what it returns. *)
Lemma run_backtest_ran (now : Z) (first : string) (rest : list string)
    (start_date end_date : Z) (use_llm reset_before : bool) (w : world) :
  let tickers := first :: rest in
  let dates := get_available_dates (db w) first start_date end_date in
  let started :=
    if reset_before then reset_portfolio default_price now (self w) (db w)
    else db w in
  dates ≠ [] →
  ∃ log0 results f,
    let f1 := for_dates (length dates) 0 use_llm tickers dates
                (mkFrame (self w) started log0 (mkExecutor ForDate)
                   (mkAnalyst ForDate ForDate) 0 0 []) in
    warnings log0 = warnings (log w)
    ∧ _calculate_backtest_results (f_self f1) (f_db f1) = Returns results
    ∧ run_backtest now tickers start_date end_date use_llm reset_before w
      = (Returns
           (<["dates_processed" := PyInt (Z.of_nat (length dates))]>
              (<["decisions_count" := PyInt (Z.of_nat (decisions_count f1))]>
                 (<["trades_count" := PyInt (Z.of_nat (trades_count f1))]>
                    results))),
         Ran f)
    ∧ calls f = calls f1
    ∧ trades_count f = trades_count f1
    ∧ decisions_count f = decisions_count f1
    ∧ f_db f = f_db f1
    ∧ f_self f = f_self f1
    ∧ warnings (f_log f) = warnings (f_log f1).
Proof.
  intros tickers dates started Hdates. unfold run_backtest, tickers.
  set (w1 := if reset_before then _ else _).
  assert (Hself : self w1 = self w) by (unfold w1; by destruct reset_before).
  assert (Hdb : db w1 = started) by (unfold w1; by destruct reset_before).
  assert (Hlog : warnings (log w1) = warnings (log w)).
  { unfold w1. destruct reset_before; simpl; rewrite !warnings_snoc; simpl;
      by rewrite !Nat.add_0_r. }
  assert (Hd : get_available_dates (db w1) first start_date end_date = dates).
  { unfold w1. by destruct reset_before. }
  rewrite Hd. clearbody dates w1.
  destruct dates as [|date0 dates'] eqn:Hds; [done |].
  rewrite <- Hds. simpl. rewrite Hself, Hdb.
  set (log0 := log w1 ++ [InfoDaysFound (length dates)]).
  set (f1 := for_dates _ _ _ _ _ _).
  destruct (calculate_backtest_results_returns (f_self f1) (f_db f1))
    as [results Hres].
  rewrite Hres.
  exists log0, results. eexists. split_and!; [| exact Hres | reflexivity | ..];
    simpl; try done.
  - unfold log0. rewrite warnings_snoc, Hlog. simpl. by rewrite Nat.add_0_r.
  - rewrite warnings_snoc. simpl. by rewrite Nat.add_0_r.
Qed.

(** X12. The counters of a completed run are consistent with what the
    loop did: there are no more trades than decisions and no more
    decisions than requests, (N - 5) per ticker, and each request that
    was not counted as a decision left a warning in the log. *)
Theorem counters_accounted (now : Z) (tickers : list string)
    (start_date end_date : Z) (use_llm reset_before : bool) (w : world)
    (f : frame) :
  (run_backtest now tickers start_date end_date use_llm reset_before w).2 = Ran f →
  let asked :=
    ((length (trading_calendar (db w) tickers start_date end_date) - 5)
     * length tickers)%nat in
  (trades_count f ≤ decisions_count f)%nat
  ∧ (decisions_count f ≤ asked)%nat
  ∧ (asked + warnings (log w) ≤ decisions_count f + warnings (f_log f))%nat.
Proof.
  intros Hran asked.
  pose proof (run_backtest_spec now tickers start_date end_date use_llm
                reset_before w) as Hspec.
  destruct (run_backtest now tickers start_date end_date use_llm reset_before w)
    as [r x] eqn:Hrun. simpl in Hran. subst x.
  destruct Hspec as (Htickers & Hdates & _ & _ & _ & _ & _ & Hreq & _).
  destruct tickers as [|first rest]; [done |]. simpl in Hdates.
  destruct (run_backtest_ran now first rest start_date end_date use_llm
              reset_before w Hdates)
    as (log0 & results & f' & Hlog0 & _ & Hrun' & Hcalls & Htr & Hdec & _ & _ & Hwarn).
  rewrite Hrun in Hrun'. injection Hrun' as _ <-.
  set (f0 := mkFrame _ _ log0 _ _ _ _ _) in *.
  assert (Hcons : counters_consistent (warnings log0)
                    (for_dates
                       (length (get_available_dates (db w) first start_date end_date))
                       0 use_llm (first :: rest)
                       (get_available_dates (db w) first start_date end_date) f0)).
  { apply for_dates_counts. unfold counters_consistent, requests. simpl. lia. }
  destruct Hcons as (Ht & Hd & Hr).
  assert (Hasked : requests f = asked).
  { unfold requests. rewrite Hreq. apply requests_after_warmup_length. }
  unfold requests in Hd, Hr, Hasked. rewrite <- Hcalls in Hd, Hr.
  rewrite <- Htr, <- Hdec, <- Hwarn in *. rewrite Hlog0 in Hr.
  rewrite Hasked in Hd, Hr. lia.
Qed.


(** X14. A range in which the first ticker has between one and five
    dates gives a full result, not the empty dict: no agent is called,
    the database is as the start-up left it, and the result counts no
    decision, no trade and all the dates. *)
Theorem short_calendar_no_activity (now : Z) (first : string)
    (rest : list string) (start_date end_date : Z)
    (use_llm reset_before : bool) (w : world) :
  let dates := get_available_dates (db w) first start_date end_date in
  dates ≠ [] → (length dates ≤ 5)%nat →
  ∃ results f,
    run_backtest now (first :: rest) start_date end_date use_llm reset_before w
    = (Returns results, Ran f)
    ∧ calls f = []
    ∧ f_db f = (if reset_before
                then reset_portfolio default_price now (self w) (db w)
                else db w)
    ∧ results !! "decisions_count" = Some (PyInt 0)
    ∧ results !! "trades_count" = Some (PyInt 0)
    ∧ results !! "dates_processed" = Some (PyInt (Z.of_nat (length dates))).
Proof.
  intros dates Hdates Hshort.
  destruct (run_backtest_ran now first rest start_date end_date use_llm
              reset_before w Hdates)
    as (log0 & results & f & _ & _ & Hrun & Hcalls & _ & _ & Hdb & _).
  fold dates in Hrun, Hcalls, Hdb.
  match type of Hcalls with
  | context [for_dates ?n ?i ?l ?ts ?ds ?f0] =>
      destruct (for_dates_warmup n l ts ds i f0)
        as (Hdb1 & _ & Hcalls1 & Htr & Hdec); [simpl; lia |]
  end.
  simpl in Hdb1, Hcalls1, Htr, Hdec.
  rewrite Htr, Hdec in Hrun. rewrite Hcalls1 in Hcalls. rewrite Hdb1 in Hdb.
  eexists _, f. split_and!; [exact Hrun | done | done | ..].
  - rewrite lookup_insert_ne by done. by rewrite lookup_insert_eq.
  - do 2 (rewrite lookup_insert_ne by done). by rewrite lookup_insert_eq.
  - by rewrite lookup_insert_eq.
Qed.

(** X15. When the first ticker has no row in the range the run ends at
    the second check, whatever rows the other tickers have: it returns
    the empty dict, logs the error, calls no agent and leaves the clock
    alone; the portfolio has been reset if [reset_before] is set. *)
Theorem no_data_returns_early (now : Z) (first : string) (rest : list string)
    (start_date end_date : Z) (use_llm reset_before : bool) (w : world) :
  (∀ r, r ∈ quotes (db w) → q_ticker r = first →
        ¬ (start_date ≤ q_date r ≤ end_date)) →
  let r := run_backtest now (first :: rest) start_date end_date use_llm
             reset_before w in
  r.1 = Returns ∅
  ∧ calls_of r.2 = []
  ∧ self (world_after r.2) = self w
  ∧ db (world_after r.2)
    = (if reset_before then reset_portfolio default_price now (self w) (db w)
       else db w)
  ∧ last (log (world_after r.2)) = Some (ErrorNoData first).
Proof.
  intros Hnone.
  assert (Hdates : get_available_dates (db w) first start_date end_date = []).
  { destruct (get_available_dates _ _ _ _) as [|date l] eqn:Hd; [done |].
    assert (Hin : date ∈ get_available_dates (db w) first start_date end_date)
      by (rewrite Hd; left).
    apply get_available_dates_elem in Hin as (r & Hr & Ht & <- & Hrange).
    by destruct (Hnone r Hr Ht). }
  unfold run_backtest.
  set (w1 := if reset_before then _ else _).
  assert (Hd : get_available_dates (db w1) first start_date end_date = []).
  { rewrite <- Hdates. unfold w1. by destruct reset_before. }
  rewrite Hd. simpl. split_and!; [done | done | ..].
  - unfold w1. by destruct reset_before.
  - unfold w1. by destruct reset_before.
  - apply last_snoc.
Qed.

Lemma calculate_backtest_results_dom (self : BacktestEngine) (d : database)
    (results : gmap string pynum) :
  _calculate_backtest_results self d = Returns results →
  dom results = aggregator_keys.
Proof.
  unfold _calculate_backtest_results.
  destruct (win_rate_of _) as [win_rate | e]; [| done].
  destruct (pnl_percent_of _ _) as [pnl_percent | e]; [| done].
  intros [= <-]. rewrite !dom_insert_L, dom_empty_L.
  unfold aggregator_keys. set_solver.
Qed.

(** X16. What [run_backtest] returns is either the empty dict, at one of
    the two start-up checks, or a dict with exactly the twelve keys of a
    result, in which [dates_processed] counts the warm-up dates as
    well. *)
Theorem result_has_all_keys (now : Z) (tickers : list string)
    (start_date end_date : Z) (use_llm reset_before : bool) (w : world) :
  let r := run_backtest now tickers start_date end_date use_llm reset_before w in
  match r.2 with
  | Early _ => r.1 = Returns ∅
  | Ran _ =>
      ∃ results,
        r.1 = Returns results
        ∧ dom results = result_keys
        ∧ results !! "dates_processed"
          = Some (PyInt (Z.of_nat
                           (length (trading_calendar (db w) tickers
                                      start_date end_date))))
  end.
Proof.
  intros r.
  pose proof (run_backtest_spec now tickers start_date end_date use_llm
                reset_before w) as Hspec.
  unfold r.
  destruct (run_backtest now tickers start_date end_date use_llm reset_before w)
    as [out [w' | f]] eqn:Hrun; simpl; [by destruct Hspec as (-> & _) |].
  destruct Hspec as (Htickers & Hdates & _).
  destruct tickers as [|first rest]; [done |]. simpl in Hdates.
  destruct (run_backtest_ran now first rest start_date end_date use_llm
              reset_before w Hdates)
    as (log0 & results & f' & _ & Hres & Hrun' & _).
  rewrite Hrun in Hrun'. injection Hrun' as -> _.
  eexists. split_and!; [done | | by rewrite lookup_insert_eq].
  rewrite !dom_insert_L, (calculate_backtest_results_dom _ _ _ Hres).
  unfold result_keys. set_solver.
Qed.

(** X17. The engine executes buy signals only: every call of
    [_execute_buy] in a run is for a decision that is BUY or STRONG_BUY,
    and carries no strategy when the LLM is off. *)
Theorem only_buy_signals_executed (now : Z) (tickers : list string)
    (start_date end_date : Z) (use_llm reset_before : bool) (w : world) :
  Forall (executes_buy_signal use_llm)
    (calls_of (run_backtest now tickers start_date end_date use_llm
                 reset_before w).2).
Proof.
  pose proof (run_backtest_spec now tickers start_date end_date use_llm
                reset_before w) as Hspec.
  destruct (run_backtest now tickers start_date end_date use_llm reset_before w)
    as [r [w' | f]] eqn:Hrun; simpl; [constructor |].
  destruct Hspec as (Htickers & Hdates & _).
  destruct tickers as [|first rest]; [done |]. simpl in Hdates.
  destruct (run_backtest_ran now first rest start_date end_date use_llm
              reset_before w Hdates)
    as (log0 & results & f' & _ & _ & Hrun' & Hcalls & _).
  rewrite Hrun in Hrun'. injection Hrun' as _ <-.
  rewrite Hcalls.
  match goal with
  | |- context [for_dates ?n ?i ?l ?ts ?ds ?f0] =>
      destruct (for_dates_buy_signals n l ts ds i f0) as (extra & -> & Hextra)
  end.
  done.
Qed.

End RunFurther.

(** ** The further properties on the scenario *)

Ltac scenario_rows Hr :=
  unfold Scenario.start, Scenario.store, Scenario.msft in Hr; simpl in Hr;
  rewrite !elem_of_cons in Hr; destruct_or!; subst;
  try (by apply elem_of_nil in Hr).

(** No close of the scenario is negative: the 10 shares of MSFT are
    worth 1070 on day 7. *)
Lemma open_positions_value_nonnegative_witness :
  ∃ results value,
    _calculate_backtest_results (H := Scenario.quiet) (mkEngine (1000 # 1) (Some 7))
      Scenario.store = Returns results
    ∧ results !! "open_positions_value" = Some (PyFloat value)
    ∧ (0 <= value)%Q.
Proof.
  apply (open_positions_value_nonnegative (H := Scenario.quiet)).
  intros r Hr. scenario_rows Hr; by unfold Qle.
Defined.

(** With an analyst that always raises, the two requests of the scenario
    give no decision and two warnings. *)
Lemma counters_accounted_witness :
  match (run_backtest (H := Scenario.failing) 0 ["MSFT"%string] 1 7 false true
           Scenario.start).2 with
  | Ran f => (2 + warnings (log Scenario.start)
              ≤ decisions_count f + warnings (f_log f))%nat
  | Early _ => False
  end.
Proof.
  pose proof (counters_accounted (H := Scenario.failing) 0 ["MSFT"%string] 1 7
                false true Scenario.start) as Hcount.
  assert (Hasked : ((length (trading_calendar (db Scenario.start)
                               ["MSFT"%string] 1 7) - 5)
                    * length ["MSFT"%string])%nat = 2%nat)
    by (vm_compute; reflexivity).
  destruct (run_backtest (H := Scenario.failing) 0 ["MSFT"%string] 1 7 false true
              Scenario.start).2 as [w' | f] eqn:Hrun.
  - vm_compute in Hrun. discriminate Hrun.
  - destruct (Hcount f eq_refl) as (_ & _ & Hwarn).
    rewrite Hasked in Hwarn. exact Hwarn.
Defined.

(** Over the first three days of the scenario nothing is asked of the
    agents, and the result counts three dates. *)
Lemma short_calendar_no_activity_witness :
  ∃ results f,
    run_backtest (H := Scenario.quiet) 0 ["MSFT"%string] 1 3 false false
      Scenario.start = (Returns results, Ran f)
    ∧ calls f = []
    ∧ results !! "dates_processed" = Some (PyInt 3).
Proof.
  destruct (short_calendar_no_activity (H := Scenario.quiet) 0 "MSFT" [] 1 3
              false false Scenario.start)
    as (results & f & Hrun & Hcalls & _ & _ & _ & Hdates).
  - vm_compute. discriminate.
  - vm_compute. lia.
  - exists results, f. split; [exact Hrun |]. split; [exact Hcalls |].
    exact Hdates.
Defined.

(** SNDK has no row in the scenario: a run over SNDK and MSFT returns
    the empty dict, though MSFT has seven days of rows. *)
Lemma no_data_returns_early_witness :
  (run_backtest (H := Scenario.quiet) 0 ["SNDK"%string; "MSFT"%string] 1 7
     false false Scenario.start).1 = Returns ∅.
Proof.
  apply (no_data_returns_early (H := Scenario.quiet) 0 "SNDK" ["MSFT"%string] 1 7
           false false Scenario.start).
  intros r Hr Ht. scenario_rows Hr; discriminate Ht.
Defined.
